(** * pr-metrics: the scoring engine of [scripts/pr-metrics.mjs]

    A shallow embedding of the pure part of the script: the business-hours
    clock, the threshold scorer with its fixed tables, the weighted average
    and the aggregation into complexity, M1..M4 and maturity.

    Numbers.  JavaScript numbers are IEEE binary64.  Counts, timestamps
    (milliseconds since the epoch), minutes of the day and scores are
    integers far below 2^53, where binary64 arithmetic is exact: they are
    [Z] (or [nat] for array lengths).  Fractional quantities (averages,
    ratios, hours, weights, aggregates) are rationals [Q]: every operation
    yields the exact value that binary64 would round.  Module [Binary64]
    repeats [weightedAvg] and the aggregates on the kernel's binary64 floats
    and records where the rounding is visible and where it is not. *)

From Stdlib Require Import ZArith QArith Qround Lqa Lia List String Bool Permutation.
From Stdlib Require Import PrimFloat.

#[local] Set Warnings "-inexact-float".
From Equations Require Import Equations.
Import ListNotations.

Local Open Scope Z_scope.

(** ** Numbers *)

(** [Math.round]: the nearest integer, a tie going up. *)
Definition Math_round (x : Q) : Z := Qfloor (x + (1 # 2))%Q.

(** [clamp(x, a, b) = Math.max(a, Math.min(b, x))]. *)
Definition clamp (x a b : Z) : Z := Z.max a (Z.min b x).

(** ** Scoring helper *)

(** A table row [{min, max, score}]; a bound that is left out reads back as
    [undefined], here [None]. *)
Module Range.
Record t : Type := mk { min : option Q; max : option Q; score : Z }.
End Range.

Definition okMin (value : Q) (t : Range.t) : bool :=
  match Range.min t with
  | None => true
  | Some m => Qle_bool m value      (* value >= t.min *)
  end.

Definition okMax (value : Q) (t : Range.t) : bool :=
  match Range.max t with
  | None => true
  | Some M => Qle_bool value M      (* value <= t.max *)
  end.

Fixpoint scoreByThresholds (value : Q) (thresholdsAsc : list Range.t) : Z :=
  match thresholdsAsc with
  | [] => 1
  | t :: rest =>
      if okMin value t && okMax value t then Range.score t
      else scoreByThresholds value rest
  end.

(** The position of the row [scoreByThresholds] returns from, [None] when the
    loop falls through to [return 1]. *)
Fixpoint matchedRow (value : Q) (thresholdsAsc : list Range.t) : option nat :=
  match thresholdsAsc with
  | [] => None
  | t :: rest =>
      if okMin value t && okMax value t then Some O
      else option_map S (matchedRow value rest)
  end.

(** A row admits a value when the value is within its bounds, both
    inclusive, a missing bound admitting everything. *)
Definition admits (value : Q) (t : Range.t) : Prop :=
  (forall m, Range.min t = Some m -> (m <= value)%Q) /\
  (forall M, Range.max t = Some M -> (value <= M)%Q).

(** ** Weighted average *)

Module Item.
Record t : Type := mk { score : Z; weight : Q }.
End Item.

Definition weightedAvg (items : list Item.t) : Q :=
  let num := fold_left (fun s it => s + inject_Z (Item.score it) * Item.weight it)%Q items 0%Q in
  let den := fold_left (fun s it => s + Item.weight it)%Q items 0%Q in
  if Qeq_bool den 0 then 0%Q else (num / den)%Q.

(** ** Tables *)

Definition row (lo hi : option Q) (s : Z) : Range.t := Range.mk lo hi s.

Definition thresholdsCommitsCount : list Range.t :=
  [ row (Some 8%Q) None 1;
    row (Some 6%Q) (Some 7%Q) 2;
    row (Some 5%Q) (Some 5%Q) 3;
    row (Some 3%Q) (Some 4%Q) 4;
    row (Some 1%Q) (Some 2%Q) 5 ].

Definition thresholdsAvgFilesPerCommit (legacy : bool) : list Range.t :=
  if negb legacy then
    [ row (Some 40%Q) None 1;
      row (Some 30%Q) (Some 39.999%Q) 2;
      row (Some 20%Q) (Some 29.999%Q) 3;
      row (Some 15%Q) (Some 19.999%Q) 4;
      row None (Some 14.999%Q) 5 ]
  else
    [ row (Some 60%Q) None 1;
      row (Some 50%Q) (Some 59.999%Q) 2;
      row (Some 40%Q) (Some 49.999%Q) 3;
      row (Some 35%Q) (Some 39.999%Q) 4;
      row None (Some 34.999%Q) 5 ].

Definition thresholdsAvgLinesPerCommit (legacy : bool) : list Range.t :=
  if negb legacy then
    [ row (Some 350%Q) None 1;
      row (Some 250%Q) (Some 349.999%Q) 2;
      row (Some 150%Q) (Some 249.999%Q) 3;
      row (Some 100%Q) (Some 149.999%Q) 4;
      row None (Some 99.999%Q) 5 ]
  else
    [ row (Some 400%Q) None 1;
      row (Some 300%Q) (Some 399.999%Q) 2;
      row (Some 200%Q) (Some 299.999%Q) 3;
      row (Some 150%Q) (Some 199.999%Q) 4;
      row None (Some 149.999%Q) 5 ].

Definition thresholdsLinesModified (legacy : bool) : list Range.t :=
  if negb legacy then
    [ row (Some 1200.0001%Q) None 1;
      row (Some 500.0001%Q) (Some 1200%Q) 2;
      row (Some 300.0001%Q) (Some 500%Q) 3;
      row (Some 50.0001%Q) (Some 300%Q) 4;
      row None (Some 50%Q) 5 ]
  else
    [ row (Some 1200.0001%Q) None 1;
      row (Some 700.0001%Q) (Some 1200%Q) 2;
      row (Some 500.0001%Q) (Some 700%Q) 3;
      row (Some 100.0001%Q) (Some 500%Q) 4;
      row None (Some 100%Q) 5 ].

Definition thresholdsCloseTimeHours (complexity : Z) : list Range.t :=
  let complex := 3 <? complexity in
  if complex then
    [ row (Some 32.0001%Q) None 1;
      row (Some 20.0001%Q) (Some 32%Q) 2;
      row (Some 8.0001%Q) (Some 20%Q) 3;
      row (Some 4.0001%Q) (Some 8%Q) 4;
      row None (Some 4%Q) 5 ]
  else
    [ row (Some 32.0001%Q) None 1;
      row None (Some 0.5%Q) 1;
      row (Some 20.0001%Q) (Some 32%Q) 2;
      row (Some 0.5001%Q) (Some 1%Q) 2;
      row (Some 8.0001%Q) (Some 20%Q) 3;
      row (Some 4.0001%Q) (Some 8%Q) 4;
      row None (Some 4%Q) 5 ].

Definition thresholdsObservations (complexity : Z) : list Range.t :=
  if (1 <=? complexity) && (complexity <? 3) then
    [ row None (Some 0%Q) 1;
      row (Some 1%Q) (Some 1%Q) 2;
      row (Some 2%Q) (Some 5%Q) 3;
      row (Some 6%Q) (Some 10%Q) 4;
      row (Some 11%Q) None 5 ]
  else if (3 <=? complexity) && (complexity <? 4) then
    [ row None (Some 0%Q) 2;
      row (Some 1%Q) (Some 2%Q) 3;
      row (Some 3%Q) None 4 ]
  else if (4 <=? complexity) && (complexity <? 5) then
    [ row None (Some 0%Q) 3;
      row (Some 1%Q) None 4;
      row (Some 2%Q) None 5 ]
  else
    [ row None (Some 0%Q) 4;
      row (Some 1%Q) None 5 ].

(** ** Business hours *)

(** [parseTimeHHMM] yields [{hh, mm}]; the three configured times are read
    once at start-up from [WORK_HOURS] and [MORNING_CUTOFF]. *)
Record HHMM : Type := mkHHMM { hh : Z; mm : Z }.

Record Config : Type := mkConfig {
  workStart : HHMM;
  workEnd : HHMM;
  morningCutoff : HHMM
}.

(** [WORK_HOURS = "09:00-18:00"], [MORNING_CUTOFF = "07:30"]. *)
Definition defaultConfig : Config :=
  mkConfig (mkHHMM 9 0) (mkHHMM 18 0) (mkHHMM 7 30).

(** What [toZonedParts] returns. *)
Record ZonedParts : Type := mkParts {
  year : Z; month : Z; day : Z;
  hour : Z; minute : Z; second : Z;
  weekday : string       (* Mon, Tue... *)
}.

Definition isWeekday (weekday : string) : bool :=
  existsb (String.eqb weekday) ["Mon"; "Tue"; "Wed"; "Thu"; "Fri"]%string.

Definition minutesSinceMidnight (h m : Z) : Z := h * 60 + m.

(** One hour, in milliseconds: the chunk of the walk. *)
Definition hourMs : Z := 60 * 60 * 1000.

Section Clock.

(** [toZonedParts(date, tz)] is [Intl.DateTimeFormat] of the platform: the
    clock is verified for any such function.  An instant is its number of
    milliseconds since the epoch. *)
Variable toZonedParts : Z -> string -> ZonedParts.
Variable cfg : Config.

Definition ws : Z := minutesSinceMidnight (hh (workStart cfg)) (mm (workStart cfg)).
Definition we : Z := minutesSinceMidnight (hh (workEnd cfg)) (mm (workEnd cfg)).
Definition cutoffMin : Z :=
  minutesSinceMidnight (hh (morningCutoff cfg)) (mm (morningCutoff cfg)).

Definition startInWork (startUtc : Z) (tz : string) : bool :=
  let sp := toZonedParts startUtc tz in
  let startMin := minutesSinceMidnight (hour sp) (minute sp) in
  isWeekday (weekday sp) && (ws <=? startMin) && (startMin <=? we).

Definition endBeforeCutoffSameOrNext (endUtc : Z) (tz : string) : bool :=
  let ep := toZonedParts endUtc tz in
  let endMin := minutesSinceMidnight (hour ep) (minute ep) in
  endMin <=? cutoffMin.

(** The body of the [while] loop: the new [total] after the chunk
    [[cur, next]]. *)
Definition chunk (inWork : bool) (tz : string) (cur next total : Z) : Z :=
  let p := toZonedParts cur tz in
  let pNext := toZonedParts next tz in
  if isWeekday (weekday p) then
    let curMin := minutesSinceMidnight (hour p) (minute p) in
    let nextMin := minutesSinceMidnight (hour pNext) (minute pNext) in
    let effectiveStart := if negb inWork then Z.max ws cutoffMin else ws in
    let a := clamp curMin effectiveStart we in
    let b := clamp nextMin effectiveStart we in
    if a <? b then total + (b - a) else total
  else total.

(** [while (cur < endUtc) { ...; cur = next; }] with
    [next = min(endUtc, cur + 1h)]. *)
Equations? walk (inWork : bool) (endUtc : Z) (tz : string) (cur total : Z) : Z
  by wf (Z.to_nat ((endUtc - cur + hourMs - 1) / hourMs)) lt :=
  walk inWork endUtc tz cur total with Z_lt_dec cur endUtc := {
    | left _ =>
        let next := Z.min endUtc (cur + hourMs) in
        walk inWork endUtc tz next (chunk inWork tz cur next total)
    | right _ => total }.
Proof.
  subst next. change hourMs with 3600000.
  apply Z2Nat.inj_lt; try (apply Z.div_pos; lia).
  destruct (Z.min_spec endUtc (cur + 3600000)) as [[Hlt ->] | [Hle ->]].
  - replace (endUtc - endUtc + 3600000 - 1) with 3599999 by lia.
    change (3599999 / 3600000) with 0.
    apply Z.div_str_pos; lia.
  - replace (endUtc - cur + 3600000 - 1)
      with ((endUtc - (cur + 3600000) + 3600000 - 1) + 1 * 3600000) by lia.
    rewrite Z.div_add by lia. lia.
Qed.

Definition businessMinutesBetween (startUtc endUtc : Z) (tz : string) : Z :=
  if endUtc <=? startUtc then 0
  else
    let inWork := startInWork startUtc tz in
    if negb inWork && endBeforeCutoffSameOrNext endUtc tz then
      Math_round (inject_Z (endUtc - startUtc) / 60000)
    else
      walk inWork endUtc tz startUtc 0.

(** *** The walk, as the text of the rule describes it *)

(** The width of the overlap of [[lo, hi]] with [[from, to]], never
    negative. *)
Definition overlap (lo hi from to : Z) : Z :=
  Z.max 0 (Z.min hi to - Z.max lo from).

(** The configured times as minutes of the day, as the rule names them. *)
Definition minutesOf (t : HHMM) : Z := 60 * hh t + mm t.
Definition workStartMinute : Z := minutesOf (workStart cfg).
Definition workEndMinute : Z := minutesOf (workEnd cfg).
Definition cutoffMinute : Z := minutesOf (morningCutoff cfg).

(** The work start a walk uses: the work-start minute, raised to the
    cutoff minute when the span began outside the work window. *)
Definition effectiveWorkStart (inWork : bool) : Z :=
  if inWork then workStartMinute else Z.max workStartMinute cutoffMinute.

(** The work days: Monday to Friday. *)
Definition onWorkDay (p : ZonedParts) : Prop :=
  In (weekday p) ["Mon"; "Tue"; "Wed"; "Thu"; "Fri"]%string.

Definition onWorkDay_dec (p : ZonedParts) : {onWorkDay p} + {~ onWorkDay p} :=
  in_dec string_dec (weekday p) ["Mon"; "Tue"; "Wed"; "Thu"; "Fri"]%string.

(** What one slice contributes: on Monday to Friday (the weekday at the
    start of the slice) its overlap with the work window, otherwise 0. *)
Definition sliceMinutes (inWork : bool) (tz : string) (s : Z * Z) : Z :=
  let p := toZonedParts (fst s) tz in
  let q := toZonedParts (snd s) tz in
  if onWorkDay_dec p then
    overlap (minutesSinceMidnight (hour p) (minute p))
            (minutesSinceMidnight (hour q) (minute q))
            (effectiveWorkStart inWork) workEndMinute
  else 0.

(** [n] consecutive slices from [cur]: each one hour long, cut at
    [endUtc]. *)
Fixpoint slicesFrom (n : nat) (cur endUtc : Z) : list (Z * Z) :=
  match n with
  | O => []
  | S n' => (cur, Z.min endUtc (cur + hourMs)) :: slicesFrom n' (cur + hourMs) endUtc
  end.

(** The number of slices from [cur] to [endUtc]: the hours between them,
    rounded up. *)
Definition slicesLeft (cur endUtc : Z) : nat :=
  Z.to_nat ((endUtc - cur + hourMs - 1) / hourMs).


Definition sumZ (l : list Z) : Z := fold_right Z.add 0 l.

(** The minute of the local day of an instant. *)
Definition minuteOfDay (p : ZonedParts) : Z := minutesSinceMidnight (hour p) (minute p).

(** The local time of day of the instant [t] with the parts [p], in
    milliseconds, seconds and milliseconds included: zones are offset from
    UTC by whole seconds, so the milliseconds within the second are those of
    the instant. *)
Definition timeOfDayMs (p : ZonedParts) (t : Z) : Z :=
  ((hour p * 60 + minute p) * 60 + second p) * 1000 + t mod 1000.

(** The parts carry a second from 0 to 59. *)
Definition wellFormedClock (tz : string) : Prop :=
  forall t : Z, 0 <= second (toZonedParts t tz) <= 59.

(** The two conditions of the carve-out rule in the words of the rule, on
    the time of day as it is: the start is outside the work window when it
    is on a day that is not a work day, or on a work day before the work
    start or after the work end; the end is at or before the cutoff. *)
Definition outsideWorkWindow (p : ZonedParts) (t : Z) : Prop :=
  ~ onWorkDay p \/
  (onWorkDay p /\ (timeOfDayMs p t < workStartMinute * 60000 \/
                   workEndMinute * 60000 < timeOfDayMs p t)).

Definition atOrBeforeCutoff (p : ZonedParts) (t : Z) : Prop :=
  timeOfDayMs p t <= cutoffMinute * 60000.

(** The instants at which reading the time to the minute, as the code does,
    differs from the rule: a start on a work day within the minute that
    begins at the work end, after the work end (18:00:00.001 to 18:00:59.999
    with the default hours); an end within the minute that begins at the
    cutoff, after the cutoff (07:30:00.001 to 07:30:59.999). *)
Definition pastWorkEndWithinMinute (p : ZonedParts) (t : Z) : Prop :=
  onWorkDay p /\ workStartMinute <= workEndMinute /\
  minuteOfDay p = workEndMinute /\ workEndMinute * 60000 < timeOfDayMs p t.

Definition pastCutoffWithinMinute (p : ZonedParts) (t : Z) : Prop :=
  minuteOfDay p = cutoffMinute /\ cutoffMinute * 60000 < timeOfDayMs p t.

End Clock.

(** *** A zone at a fixed offset from UTC

    [Intl.DateTimeFormat] for a zone without daylight saving, such as the
    default [America/Santo_Domingo] (UTC-4): the local civil date and time
    of an instant, in the proleptic Gregorian calendar. *)
Definition msPerDay : Z := 24 * hourMs.

Definition weekdayName (i : Z) : string :=
  nth (Z.to_nat i) ["Sun"; "Mon"; "Tue"; "Wed"; "Thu"; "Fri"; "Sat"]%string EmptyString.

(** The civil date of a day number (days since 1970-01-01). *)
Definition civilFromDays (days : Z) : Z * Z * Z :=
  let z := days + 719468 in
  let era := z / 146097 in
  let doe := z - era * 146097 in
  let yoe := (doe - doe / 1460 + doe / 36524 - doe / 146096) / 365 in
  let y := yoe + era * 400 in
  let doy := doe - (365 * yoe + yoe / 4 - yoe / 100) in
  let mp := (5 * doy + 2) / 153 in
  let d := doy - (153 * mp + 2) / 5 + 1 in
  let m := if mp <? 10 then mp + 3 else mp - 9 in
  (if m <=? 2 then y + 1 else y, m, d).

Definition fixedOffsetParts (offsetMinutes : Z) (date : Z) (tz : string) : ZonedParts :=
  let local := date + offsetMinutes * 60000 in
  let days := local / msPerDay in
  let ms := local mod msPerDay in
  let '(y, m, d) := civilFromDays days in
  mkParts y m d
          (ms / hourMs) ((ms / 60000) mod 60) ((ms / 1000) mod 60)
          (weekdayName ((days + 4) mod 7)).

(** The default zone of the script. *)
Definition santoDomingo : Z -> string -> ZonedParts := fixedOffsetParts (-240).

(** ** Input data *)

(** The pull request, as the script reads it: [state], [merged_at],
    [created_at] and [closed_at] (instants, in milliseconds), [additions],
    [deletions].  The head branch is read only through [branchRe.test]. *)
Record PullRequest : Type := mkPR {
  state : string;
  merged_at : option string;
  created_at : Z;
  closed_at : option Z;
  additions : Z;
  deletions : Z
}.

(** A commit of the pull request with its details: whether the first line of
    its message matches [commitRe], whether its type is one of chore, style,
    docs, the number of its files and [stats.total]. *)
Record Commit : Type := mkCommit {
  standardOk : bool;
  exclude : bool;
  fileCount : nat;
  totalLines : N
}.

Record Review : Type := mkReview { review_state : string; login : option string }.

Record Input : Type := mkInput {
  isLegacy : bool;              (* LEGACY_REPO *)
  isFunctional : bool;          (* FUNCTIONAL_PR *)
  tz : string;                  (* TZ *)
  pr : PullRequest;
  commits : list Commit;
  reviews : list Review;
  issueComments : nat;          (* issueComments.length *)
  reviewComments : nat;         (* reviewComments.length *)
  threads : list bool;          (* isResolved of every review thread *)
  branchOk : bool;              (* branchRe.test(headBranch) *)
  nowClosed : Z;                (* new Date(), read when the PR is not closed *)
  now : Z                       (* Date.now(), read for the age *)
}.

(** ** Derived data *)

Definition resolvedThreads (i : Input) : Z :=
  Z.of_nat (List.length (filter (fun t => t) (threads i))).
Definition unresolvedThreads (i : Input) : Z :=
  Z.of_nat (List.length (filter negb (threads i))).

Definition totalCommits (i : Input) : Z := Z.of_nat (List.length (commits i)).
Definition linesModified (i : Input) : Z := additions (pr i) + deletions (pr i).

(** [Boolean(s)] of a string. *)
Definition truthy (s : option string) : bool :=
  match s with
  | Some x => negb (String.eqb x EmptyString)
  | None => false
  end.

(** [new Set(reviews.filter(APPROVED).map(login).filter(Boolean))]. *)
Definition approvers (i : Input) : list string :=
  nodup string_dec
    (flat_map (fun r =>
                 if String.eqb (review_state r) "APPROVED" && truthy (login r)
                 then match login r with Some l => [l] | None => [] end
                 else [])
              (reviews i)).
Definition approvalsCount (i : Input) : Z := Z.of_nat (List.length (approvers i)).

Definition isClosed (i : Input) : bool := String.eqb (state (pr i)) "closed".
Definition isMerged (i : Input) : bool := truthy (merged_at (pr i)).
Definition declinedThisPr (i : Input) : Z :=
  if isClosed i && negb (isMerged i) then 1 else 0.

(** The four counters of the loop over the commits. *)
Record Sums : Type := mkSums {
  sumFiles : Z;
  sumLines : Z;
  countForAverages : Z;
  commitsStandardOk : Z
}.

Definition addCommit (a : Sums) (c : Commit) : Sums :=
  let ok := if standardOk c then commitsStandardOk a + 1 else commitsStandardOk a in
  if negb (exclude c) then
    mkSums (sumFiles a + Z.of_nat (fileCount c))
           (sumLines a + Z.of_N (totalLines c))
           (countForAverages a + 1)
           ok
  else mkSums (sumFiles a) (sumLines a) (countForAverages a) ok.

Definition sums (i : Input) : Sums := fold_left addCommit (commits i) (mkSums 0 0 0 0).

(** [d ? n / d : 0]. *)
Definition ratio (n d : Z) : Q :=
  if d =? 0 then 0%Q else (inject_Z n / inject_Z d)%Q.

Definition avgFilesPerCommit (i : Input) : Q :=
  ratio (sumFiles (sums i)) (countForAverages (sums i)).
Definition avgLinesPerCommit (i : Input) : Q :=
  ratio (sumLines (sums i)) (countForAverages (sums i)).
Definition commitStandardPct (i : Input) : Q :=
  ratio (commitsStandardOk (sums i)) (totalCommits i).

(** ** Scores *)

Definition s_commitsCount (i : Input) : Z :=
  scoreByThresholds (inject_Z (totalCommits i)) thresholdsCommitsCount.
Definition s_avgFiles (i : Input) : Z :=
  scoreByThresholds (avgFilesPerCommit i) (thresholdsAvgFilesPerCommit (isLegacy i)).
Definition s_avgLines (i : Input) : Z :=
  scoreByThresholds (avgLinesPerCommit i) (thresholdsAvgLinesPerCommit (isLegacy i)).

Definition s_commitStandard (i : Input) : Z :=
  let pct := commitStandardPct i in
  if Qle_bool 0.9 pct then 5
  else if Qle_bool 0.75 pct then 4
  else if Qle_bool 0.6 pct then 3
  else if Qle_bool 0.4 pct then 2 else 1.

Definition s_linesModified (i : Input) : Z :=
  scoreByThresholds (inject_Z (linesModified i)) (thresholdsLinesModified (isLegacy i)).

Definition item (s : Z) (w : Q) : Item.t := Item.mk s w.

Definition complexity (i : Input) : Z :=
  if negb (isFunctional i) then 5
  else
    let comp := weightedAvg
      [ item (s_commitsCount i) 0.20;
        item (s_avgFiles i) 0.25;
        item (s_avgLines i) 0.25;
        item (s_linesModified i) 0.30 ] in
    Z.min 5 (Z.max 1 (Math_round comp)).

Section Report.

Variable toZonedParts : Z -> string -> ZonedParts.
Variable cfg : Config.

Definition createdAt (i : Input) : Z := created_at (pr i).
Definition closedAt (i : Input) : Z :=
  match closed_at (pr i) with
  | Some t => t
  | None => nowClosed i        (* still open: up to now *)
  end.

Definition businessMins (i : Input) : Z :=
  businessMinutesBetween toZonedParts cfg (createdAt i) (closedAt i) (tz i).
Definition closeHours (i : Input) : Q := (inject_Z (businessMins i) / 60)%Q.
Definition s_closeTime (i : Input) : Z :=
  scoreByThresholds (closeHours i) (thresholdsCloseTimeHours (complexity i)).

Definition totalComments (i : Input) : Z :=
  Z.of_nat (issueComments i) + Z.of_nat (reviewComments i).
Definition observations (i : Input) : Z := totalComments i + resolvedThreads i.
Definition s_observations (i : Input) : Z :=
  scoreByThresholds (inject_Z (observations i)) (thresholdsObservations (complexity i)).

Definition s_approvals (i : Input) : Z :=
  if 2 <? approvalsCount i then 5
  else if approvalsCount i =? 2 then 4
  else if approvalsCount i =? 1 then 3
  else if approvalsCount i =? 0 then 2 else 1.

Definition s_declined (i : Input) : Z :=
  if declinedThisPr i =? 0 then 5 else 3.

Definition s_branch (i : Input) : Z := if branchOk i then 5 else 2.

Definition M1 (i : Input) : Q :=
  weightedAvg
    [ item (s_commitsCount i) 0.30;
      item (s_avgFiles i) 0.20;
      item (s_avgLines i) 0.20;
      item (s_commitStandard i) 0.30 ].

Definition M2 (i : Input) : Q :=
  weightedAvg
    [ item (s_approvals i) 0.50;
      item (s_declined i) 0.20;
      item (s_branch i) 0.30 ].

Definition M3 (i : Input) : Q :=
  weightedAvg
    [ item (s_closeTime i) 0.75;
      item (s_linesModified i) 0.25 ].

Definition M4 (i : Input) : Q :=
  weightedAvg [ item (s_observations i) 1.00 ].

Definition ageDays (i : Input) : Q :=
  (inject_Z (now i - createdAt i) / inject_Z (1000 * 60 * 60 * 24))%Q.

Definition m5Penalty (i : Input) : Q :=
  if String.eqb (state (pr i)) "open" && negb (Qle_bool (ageDays i) 7)
  then 0.5%Q else 0%Q.

(** [maturity] before the penalty, as a function of the four categories. *)
Definition weightedSum (m1 m2 m3 m4 : Q) : Q :=
  (m1 * 0.25 + m2 * 0.15 + m3 * 0.35 + m4 * 0.25)%Q.

Definition maturity (i : Input) : Q :=
  (weightedSum (M1 i) (M2 i) (M3 i) (M4 i) - m5Penalty i)%Q.

End Report.

(** ** Auxiliary definitions of the statements *)

(** Some row of the table admits the value: the lookup does not fall
    through to the default. *)
Definition someRowAdmits (value : Q) (table : list Range.t) : Prop :=
  exists r, In r table /\ admits value r.

(** The third row of the table of complexity 4, [{ min: 2, score: 5 }]. *)
Definition observationsRow5 : Range.t := row (Some 2%Q) None 5.

(** The two sums of [weightedAvg]: [Σ weight] and [Σ score·weight]. *)
Definition sumWeights (items : list Item.t) : Q :=
  fold_right (fun it s => Item.weight it + s)%Q 0%Q items.
Definition sumScores (items : list Item.t) : Q :=
  fold_right (fun it s => inject_Z (Item.score it) * Item.weight it + s)%Q 0%Q items.

(** All the scores of a table are from 1 to 5. *)
Definition scoresWithin (table : list Range.t) : Prop :=
  Forall (fun r => 1 <= Range.score r <= 5) table.

(** A sample run: a merged pull request of three commits, opened on Monday
    2024-01-08 at 10:00 in Santo Domingo and closed at 12:00. *)
Definition threeCommits : list Commit :=
  [ mkCommit true false 3 40; mkCommit true true 1 2; mkCommit false false 4 75 ].

Definition sampleInput : Input :=
  mkInput false true "America/Santo_Domingo"%string
          (mkPR "closed"%string (Some "2024-01-08T16:00:00Z"%string) 1704722400000
                (Some 1704729600000) 100 17)
          threeCommits
          [ mkReview "APPROVED"%string (Some "ana"%string);
            mkReview "COMMENTED"%string (Some "luis"%string);
            mkReview "APPROVED"%string (Some "ana"%string) ]
          2 1 [true; false] true 1704729600000 1704729600000.


(** A stale run: a pull request of eight large commits, opened on Monday
    2024-01-08 at 10:00 in Santo Domingo and still open thirty days later,
    with no review and no comment. *)
Definition bigCommit : Commit := mkCommit false false 50 400.

Definition stalePR : Input :=
  mkInput false true "America/Santo_Domingo"%string
          (mkPR "open"%string None 1704722400000 None 1500 900)
          (repeat bigCommit 8) [] 0 0 [] false
          (1704722400000 + 30 * 86400000) (1704722400000 + 30 * 86400000).

(** The stale run, flagged as not functional. *)
Definition stalePRChore : Input :=
  mkInput false false (tz stalePR) (pr stalePR) (commits stalePR) (reviews stalePR)
          (issueComments stalePR) (reviewComments stalePR) (threads stalePR)
          (branchOk stalePR) (nowClosed stalePR) (now stalePR).

(** ** The same arithmetic in binary64

    [weightedAvg], the four categories and the weighted sum of [maturity] on
    the binary64 numbers of the script: [+], [*] and [/] round to nearest,
    ties to even.  A score is an integer, which binary64 holds exactly. *)
Module Binary64.

Fixpoint ofPos (p : positive) : float :=
  match p with
  | xH => 1%float
  | xO q => (2 * ofPos q)%float
  | xI q => (2 * ofPos q + 1)%float
  end.

Definition ofZ (z : Z) : float :=
  match z with
  | Z0 => 0%float
  | Zpos p => ofPos p
  | Zneg p => (- ofPos p)%float
  end.

Record WeightedItem : Type := item { score : Z; weight : float }.

(** [den ? ... : ...]: a number is falsy when it is 0, -0 or NaN. *)
Definition truthy (x : float) : bool :=
  PrimFloat.eqb x x && negb (PrimFloat.eqb x 0%float).

Definition weightedAvg (items : list WeightedItem) : float :=
  let num := fold_left (fun s it => s + ofZ (score it) * weight it)%float items 0%float in
  let den := fold_left (fun s it => s + weight it)%float items 0%float in
  if truthy den then (num / den)%float else 0%float.

Definition M1 (commitsCount avgFiles avgLines commitStandard : Z) : float :=
  weightedAvg [ item commitsCount 0.30; item avgFiles 0.20;
                item avgLines 0.20; item commitStandard 0.30 ].
Definition M2 (approvals declined branch : Z) : float :=
  weightedAvg [ item approvals 0.50; item declined 0.20; item branch 0.30 ].
Definition M3 (closeTime linesModified : Z) : float :=
  weightedAvg [ item closeTime 0.75; item linesModified 0.25 ].
Definition M4 (observations : Z) : float :=
  weightedAvg [ item observations 1.00 ].

Definition weightedSum (m1 m2 m3 m4 : float) : float :=
  (m1 * 0.25 + m2 * 0.15 + m3 * 0.35 + m4 * 0.25)%float.

(** [Math.floor] and [Math.round] of a number from 0 to 2^51: adding and
    subtracting 2^52 rounds to an integer, the nearest one; [Math.round] is
    the integer below, or the next one from the half on. *)
Definition two52 : float := 4503599627370496%float.

Definition Math_floor (x : float) : float :=
  let r := (x + two52 - two52)%float in
  if PrimFloat.ltb x r then (r - 1)%float else r.

Definition Math_round (x : float) : float :=
  let f := Math_floor x in
  if PrimFloat.leb 0.5%float (x - f)%float then (f + 1)%float else f.

Definition Math_max (x y : float) : float := if PrimFloat.ltb x y then y else x.
Definition Math_min (x y : float) : float := if PrimFloat.ltb y x then y else x.

(** The complexity of a functional change, from its four scores. *)
Definition complexity (commitsCount avgFiles avgLines linesModified : Z) : float :=
  let comp := weightedAvg [ item commitsCount 0.20; item avgFiles 0.25;
                            item avgLines 0.25; item linesModified 0.30 ] in
  Math_min 5 (Math_max 1 (Math_round comp)).

(** The scores a signal can take. *)
Definition scores : list Z := [1; 2; 3; 4; 5].

Definition within (x : float) : bool :=
  PrimFloat.leb 1%float x && PrimFloat.leb x 5%float.

(** A number between two integers. *)
Definition between (lo hi : Z) (x : float) : bool :=
  PrimFloat.leb (ofZ lo) x && PrimFloat.leb x (ofZ hi).

(** The average of [complexity] before it is rounded. *)
Definition complexityAvg (commitsCount avgFiles avgLines linesModified : Z) : float :=
  weightedAvg [ item commitsCount 0.20; item avgFiles 0.25;
                item avgLines 0.25; item linesModified 0.30 ].

End Binary64.

(** ** The tables as step functions

    What the comments above the tables say the scores are. *)

(** Commits in the pull request: [>=8 => 1, 6-7 => 2, 5 => 3, 3-4 => 4,
    1-2 => 5]; below 1 no row applies. *)
Definition commitsCountSteps (n : Z) : Z :=
  if 8 <=? n then 1 else if 6 <=? n then 2 else if 5 <=? n then 3
  else if 3 <=? n then 4 else if 1 <=? n then 5 else 1.

(** Lines modified: [>1200 => 1, >500 <=1200 => 2, >300 <=500 => 3,
    >50 <=300 => 4, <=50 => 5], and the legacy bounds 1200, 700, 500, 100. *)
Definition linesModifiedSteps (legacy : bool) (n : Z) : Z :=
  if legacy then
    if 1200 <? n then 1 else if 700 <? n then 2 else if 500 <? n then 3
    else if 100 <? n then 4 else 5
  else
    if 1200 <? n then 1 else if 500 <? n then 2 else if 300 <? n then 3
    else if 50 <? n then 4 else 5.

(** An average against four bounds: [>= b1 => 1, >= b2 => 2, >= b3 => 3,
    >= b4 => 4], below [b4] 5. *)
Definition averageSteps (b1 b2 b3 b4 : Q) (v : Q) : Z :=
  if Qle_bool b1 v then 1 else if Qle_bool b2 v then 2
  else if Qle_bool b3 v then 3 else if Qle_bool b4 v then 4 else 5.

Definition avgFilesSteps (legacy : bool) : Q -> Z :=
  if legacy then averageSteps 60 50 40 35 else averageSteps 40 30 20 15.
Definition avgLinesSteps (legacy : bool) : Q -> Z :=
  if legacy then averageSteps 400 300 200 150 else averageSteps 350 250 150 100.

(** The close-time score of a number of business minutes. *)
Definition closeTimeSteps (complexity minutes : Z) : Z :=
  if 3 <? complexity then
    if 1920 <? minutes then 1 else if 1200 <? minutes then 2
    else if 480 <? minutes then 3 else if 240 <? minutes then 4 else 5
  else
    if 1920 <? minutes then 1 else if minutes <=? 30 then 1
    else if 1200 <? minutes then 2 else if minutes <=? 60 then 2
    else if 480 <? minutes then 3 else if 240 <? minutes then 4 else 5.

(** The observations score of a count. *)
Definition observationsSteps (complexity n : Z) : Z :=
  if (1 <=? complexity) && (complexity <? 3) then
    if n <=? 0 then 1 else if n <=? 1 then 2 else if n <=? 5 then 3
    else if n <=? 10 then 4 else 5
  else if (3 <=? complexity) && (complexity <? 4) then
    if n <=? 0 then 2 else if n <=? 2 then 3 else 4
  else if (4 <=? complexity) && (complexity <? 5) then
    if n <=? 0 then 3 else 4
  else
    if n <=? 0 then 4 else 5.

(** ** The report *)

(** [round1(x) = Math.round(x * 10) / 10]. *)
Definition round1 (x : Q) : Q := (inject_Z (Math_round (x * 10)) / 10)%Q.

(** The lines of the quick recommendations, in the order the report pushes
    them. *)
Inductive Advice : Type :=
| ReduceCommits        (* s_commitsCount <= 2 *)
| SplitFiles           (* s_avgFiles <= 2 *)
| SmallerCommits       (* s_avgLines <= 2 *)
| CommitMessages       (* s_commitStandard <= 3 *)
| BranchName           (* !branchOk *)
| CloseThreads         (* unresolvedThreads > 0 *)
| SpeedUpReview.       (* s_closeTime <= 2 *)

Definition pushIf (b : bool) (a : Advice) (lines : list Advice) : list Advice :=
  if b then lines ++ [a] else lines.

Definition recommendations
  (toZonedParts : Z -> string -> ZonedParts) (cfg : Config) (i : Input) : list Advice :=
  let l := [] in
  let l := pushIf (s_commitsCount i <=? 2) ReduceCommits l in
  let l := pushIf (s_avgFiles i <=? 2) SplitFiles l in
  let l := pushIf (s_avgLines i <=? 2) SmallerCommits l in
  let l := pushIf (s_commitStandard i <=? 3) CommitMessages l in
  let l := pushIf (negb (branchOk i)) BranchName l in
  let l := pushIf (0 <? unresolvedThreads i) CloseThreads l in
  pushIf (s_closeTime toZonedParts cfg i <=? 2) SpeedUpReview l.

(** An item with its weight multiplied by [k]. *)
Definition scaleWeight (k : Q) (it : Item.t) : Item.t :=
  Item.mk (Item.score it) (k * Item.weight it)%Q.

(** The same run over another list of commits. *)
Definition withCommits (i : Input) (cs : list Commit) : Input :=
  mkInput (isLegacy i) (isFunctional i) (tz i) (pr i) cs (reviews i)
          (issueComments i) (reviewComments i) (threads i) (branchOk i)
          (nowClosed i) (now i).

(** The same run over another list of reviews. *)
Definition withReviews (i : Input) (rs : list Review) : Input :=
  mkInput (isLegacy i) (isFunctional i) (tz i) (pr i) (commits i) rs
          (issueComments i) (reviewComments i) (threads i) (branchOk i)
          (nowClosed i) (now i).

(** The commits that count for the averages: all but chore, style, docs. *)
Definition counted (cs : list Commit) : list Commit :=
  filter (fun c => negb (exclude c)) cs.

(** The commit-standard score in whole numbers: [ok] conforming commits out
    of [total]. *)
Definition commitStandardSteps (ok total : Z) : Z :=
  if total =? 0 then 1
  else if 9 * total <=? 10 * ok then 5
  else if 3 * total <=? 4 * ok then 4
  else if 3 * total <=? 5 * ok then 3
  else if 2 * total <=? 5 * ok then 2 else 1.

(** A zone whose wall clock runs with the instants, at a fixed number of
    milliseconds from UTC: the minute of the day of an instant is its local
    minute, modulo the 1440 minutes of a day. *)
Definition regularZone
  (toZonedParts : Z -> string -> ZonedParts) (tz : string) (offsetMs : Z) : Prop :=
  forall t : Z,
    minuteOfDay (toZonedParts t tz) = ((t + offsetMs) / 60000) mod 1440.

(** The same run made at other times: [new Date()] and [Date.now()] read
    differently. *)
Definition atTimes (i : Input) (nowClosed' now' : Z) : Input :=
  mkInput (isLegacy i) (isFunctional i) (tz i) (pr i) (commits i) (reviews i)
          (issueComments i) (reviewComments i) (threads i) (branchOk i)
          nowClosed' now'.

(** * Properties *)

(** ** The threshold scorer *)

Lemma ok_admits (value : Q) (t : Range.t) :
  okMin value t && okMax value t = true <-> admits value t.
Proof.
  unfold okMin, okMax, admits. split.
  - intros H. apply andb_true_iff in H as [Hm HM].
    split; intros x Hx; rewrite Hx in *; apply Qle_bool_iff; assumption.
  - intros [Hm HM]. apply andb_true_iff. split.
    + destruct (Range.min t) as [m|]; [|reflexivity].
      apply Qle_bool_iff, Hm; reflexivity.
    + destruct (Range.max t) as [M|]; [|reflexivity].
      apply Qle_bool_iff, HM; reflexivity.
Qed.

Lemma not_ok_not_admits (value : Q) (t : Range.t) :
  okMin value t && okMax value t = false <-> ~ admits value t.
Proof.
  rewrite <- ok_admits. destruct (okMin value t && okMax value t); split;
    intros H; try discriminate; try reflexivity; try (intros E; discriminate).
  exfalso; apply H; reflexivity.
Qed.

(** [scoreByThresholds] returns the score of the row [matchedRow] points at. *)
Lemma score_of_matchedRow (value : Q) (table : list Range.t) :
  scoreByThresholds value table =
  match matchedRow value table with
  | Some k => Range.score (nth k table (row None None 1))
  | None => 1
  end.
Proof.
  induction table as [|t rest IH]; simpl; [reflexivity|].
  destruct (okMin value t && okMax value t); [reflexivity|].
  rewrite IH. destruct (matchedRow value rest); reflexivity.
Qed.

Lemma matchedRow_None (value : Q) (table : list Range.t) :
  matchedRow value table = None <-> forall r, In r table -> ~ admits value r.
Proof.
  induction table as [|t rest IH]; simpl.
  - split; [intros _ r [] | reflexivity].
  - destruct (okMin value t && okMax value t) eqn:E.
    + split; [discriminate|]. intros H. exfalso.
      apply (H t); [left; reflexivity | apply ok_admits; exact E].
    + destruct (matchedRow value rest) eqn:M; simpl.
      * split; [discriminate|]. intros H.
        assert (C : Some n = None) by (apply IH; intros r Hr; apply H; right; exact Hr).
        discriminate C.
      * split; [|reflexivity]. intros _ r [<- | Hr].
        -- apply not_ok_not_admits; exact E.
        -- apply IH; [reflexivity | exact Hr].
Qed.

(** C1. For every value and every table, [scoreByThresholds] returns the
    score of the first row, in the order of the table, whose bounds admit
    the value (both inclusive, a missing bound being open), and 1 when no
    row of the table admits it. *)
Theorem scoreByThresholds_first_match (value : Q) (table : list Range.t) :
  (exists before t after,
      table = before ++ t :: after /\
      (forall r, In r before -> ~ admits value r) /\
      admits value t /\
      scoreByThresholds value table = Range.score t)
  \/ ((forall r, In r table -> ~ admits value r) /\
      scoreByThresholds value table = 1).
Proof.
  induction table as [|t rest IH].
  - right. split; [intros r [] | reflexivity].
  - simpl. destruct (okMin value t && okMax value t) eqn:E.
    + left. exists [], t, rest. simpl. repeat split.
      * intros r [].
      * apply (proj1 (ok_admits value t) E).
      * apply (proj1 (ok_admits value t) E).
    + destruct IH as [(before & u & after & Heq & Hbefore & Hu & Hs) | [Hnone Hs]].
      * left. exists (t :: before), u, after. repeat split.
        -- simpl. rewrite Heq. reflexivity.
        -- intros r [<- | Hr]; [apply not_ok_not_admits; exact E | apply Hbefore; exact Hr].
        -- apply Hu.
        -- apply Hu.
        -- exact Hs.
      * right. split; [|exact Hs].
        intros r [<- | Hr]; [apply not_ok_not_admits; exact E | apply Hnone; exact Hr].
Qed.

(** The row that is returned is determined by the table and the value: the
    conditional reading of the same fact. *)
Lemma scoreByThresholds_at (value : Q) (before after : list Range.t) (t : Range.t) :
  (forall r, In r before -> ~ admits value r) ->
  admits value t ->
  scoreByThresholds value (before ++ t :: after) = Range.score t.
Proof.
  intros Hbefore Ht. induction before as [|b before IH]; simpl.
  - rewrite (proj2 (ok_admits value t) Ht). reflexivity.
  - rewrite (proj2 (not_ok_not_admits value b)) by (apply Hbefore; left; reflexivity).
    apply IH. intros r Hr. apply Hbefore. right; exact Hr.
Qed.

Lemma scoreByThresholds_fallback (value : Q) (table : list Range.t) :
  (forall r, In r table -> ~ admits value r) -> scoreByThresholds value table = 1.
Proof.
  intros H. rewrite score_of_matchedRow.
  rewrite (proj2 (matchedRow_None value table) H). reflexivity.
Qed.

(** Values that are equal as rationals are scored alike. *)
Lemma matchedRow_Qeq (v w : Q) (table : list Range.t) :
  (v == w)%Q -> matchedRow v table = matchedRow w table.
Proof.
  intros E. induction table as [|t rest IH]; simpl; [reflexivity|].
  unfold okMin, okMax. rewrite IH.
  destruct (Range.min t), (Range.max t); rewrite ?E; reflexivity.
Qed.

Lemma scoreByThresholds_Qeq (v w : Q) (table : list Range.t) :
  (v == w)%Q -> scoreByThresholds v table = scoreByThresholds w table.
Proof.
  intros E. rewrite !score_of_matchedRow, (matchedRow_Qeq v w table E). reflexivity.
Qed.

Lemma someRowAdmits_matched (value : Q) (table : list Range.t) :
  matchedRow value table <> None -> someRowAdmits value table.
Proof.
  induction table as [|t rest IH]; simpl; [intros H; contradiction H; reflexivity|].
  destruct (okMin value t && okMax value t) eqn:E.
  - intros _. exists t. split; [left; reflexivity | apply ok_admits; exact E].
  - intros H. destruct IH as (r & Hr & Ha).
    + destruct (matchedRow value rest); [discriminate | contradiction H; reflexivity].
    + exists r. split; [right; exact Hr | exact Ha].
Qed.

(** Case analysis on the comparisons of a lookup in a table that is written
    out: each [Qle_bool] becomes an inequality for [lra]. *)
Ltac lookup_cases :=
  cbn [scoreByThresholds matchedRow okMin okMax Range.min Range.max Range.score
       row andb option_map];
  repeat match goal with
    | |- context [Qle_bool ?a ?b] =>
        let E := fresh "E" in
        destruct (Qle_bool a b) eqn:E;
        [ apply Qle_bool_iff in E
        | apply not_true_iff_false in E; rewrite Qle_bool_iff in E ];
        cbn [andb option_map]
    end.

(** A quotient of integers as a fraction. *)
Lemma ratio_pos (n d : Z) : 0 < d -> (ratio n d == n # Z.to_pos d)%Q.
Proof.
  intros Hd. unfold ratio.
  destruct (d =? 0) eqn:E; [apply Z.eqb_eq in E; lia|].
  rewrite Qmake_Qdiv, Z2Pos.id by exact Hd. reflexivity.
Qed.

Lemma ratio_zero (n : Z) : ratio n 0 = 0%Q.
Proof. reflexivity. Qed.

(** Between [k - 1/1000] and [k] there is no quotient with a denominator of
    at most 1000: a fraction is at most [k - 0.001] or at least [k]. *)
Lemma fraction_gap (n : Z) (d : positive) (k : Z) :
  Z.pos d <= 1000 ->
  (n # d <= inject_Z k - 0.001)%Q \/ (inject_Z k <= n # d)%Q.
Proof.
  intros Hd. destruct (Z_lt_le_dec n (k * Z.pos d)) as [Hlt | Hle].
  - left. unfold Qle, Qminus, Qplus, Qopp, inject_Z. simpl. nia.
  - right. unfold Qle, inject_Z. simpl. lia.
Qed.

(** The averages tables have a last row without a minimum and, above it,
    rows from an integer [k] up to the next integer less 0.001. *)
Lemma avgFiles_admits (legacy : bool) (n : Z) (d : positive) :
  Z.pos d <= 1000 ->
  matchedRow (n # d) (thresholdsAvgFilesPerCommit legacy) <> None.
Proof.
  intros Hd.
  pose proof (fraction_gap n d 15 Hd). pose proof (fraction_gap n d 20 Hd).
  pose proof (fraction_gap n d 30 Hd). pose proof (fraction_gap n d 40 Hd).
  pose proof (fraction_gap n d 35 Hd). pose proof (fraction_gap n d 50 Hd).
  pose proof (fraction_gap n d 60 Hd).
  destruct legacy; unfold thresholdsAvgFilesPerCommit; cbn [negb];
    unfold inject_Z in *; generalize dependent (n # d); intros v; intros;
    lookup_cases; try discriminate; exfalso; lra.
Qed.

Lemma avgLines_admits (legacy : bool) (n : Z) (d : positive) :
  Z.pos d <= 1000 ->
  matchedRow (n # d) (thresholdsAvgLinesPerCommit legacy) <> None.
Proof.
  intros Hd.
  pose proof (fraction_gap n d 100 Hd). pose proof (fraction_gap n d 150 Hd).
  pose proof (fraction_gap n d 250 Hd). pose proof (fraction_gap n d 350 Hd).
  pose proof (fraction_gap n d 200 Hd). pose proof (fraction_gap n d 300 Hd).
  pose proof (fraction_gap n d 400 Hd).
  destruct legacy; unfold thresholdsAvgLinesPerCommit; cbn [negb];
    unfold inject_Z in *; generalize dependent (n # d); intros v; intros;
    lookup_cases; try discriminate; exfalso; lra.
Qed.

Lemma ratio_admitted (legacy : bool) (n d : Z) :
  0 <= d <= 1000 ->
  matchedRow (ratio n d) (thresholdsAvgFilesPerCommit legacy) <> None /\
  matchedRow (ratio n d) (thresholdsAvgLinesPerCommit legacy) <> None.
Proof.
  intros Hd. destruct (Z.eq_dec d 0) as [-> | Hnz].
  - rewrite ratio_zero. destruct legacy; split; discriminate.
  - assert (Hpos : 0 < d) by lia.
    rewrite !(matchedRow_Qeq _ _ _ (ratio_pos n d Hpos)).
    split; [apply avgFiles_admits | apply avgLines_admits];
      rewrite Z2Pos.id; lia.
Qed.

(** The loop over the commits counts at most one per commit. *)
Lemma countForAverages_fold (l : list Commit) (a : Sums) :
  countForAverages a <= countForAverages (fold_left addCommit l a)
  <= countForAverages a + Z.of_nat (List.length l).
Proof.
  revert a. induction l as [|c l IH]; intros a; simpl fold_left.
  - simpl. lia.
  - specialize (IH (addCommit a c)).
    assert (countForAverages a <= countForAverages (addCommit a c)
            <= countForAverages a + 1)
      by (unfold addCommit; destruct (exclude c); simpl; lia).
    change (List.length (c :: l)) with (S (List.length l)). lia.
Qed.

Lemma countForAverages_bounds (i : Input) :
  0 <= countForAverages (sums i) <= totalCommits i.
Proof.
  unfold sums, totalCommits.
  pose proof (countForAverages_fold (commits i) (mkSums 0 0 0 0)) as H.
  simpl in H. lia.
Qed.

(** C7, as the code has it. For every count of commits from 1 on, some row
    of the commit-count table admits it.  For every quotient of an integer
    by a count from 1 to 1000 (so every average over at most 1000 commits,
    every integer and every value with three decimals), and for the average
    0 of no counted commit, some row of the standard and of the legacy
    table of files per commit and of lines per commit admits it. *)
Theorem tables_exhaustive_on_computed_values :
  (forall n : Z, 1 <= n -> someRowAdmits (inject_Z n) thresholdsCommitsCount) /\
  (forall (legacy : bool) (n d : Z), 0 <= d <= 1000 ->
     someRowAdmits (ratio n d) (thresholdsAvgFilesPerCommit legacy) /\
     someRowAdmits (ratio n d) (thresholdsAvgLinesPerCommit legacy)) /\
  (forall i : Input, (1 <= List.length (commits i) <= 1000)%nat ->
     someRowAdmits (inject_Z (totalCommits i)) thresholdsCommitsCount /\
     someRowAdmits (avgFilesPerCommit i) (thresholdsAvgFilesPerCommit (isLegacy i)) /\
     someRowAdmits (avgLinesPerCommit i) (thresholdsAvgLinesPerCommit (isLegacy i))).
Proof.
  assert (Hcount : forall n : Z, 1 <= n ->
            someRowAdmits (inject_Z n) thresholdsCommitsCount).
  { intros n Hn. apply someRowAdmits_matched.
    unfold thresholdsCommitsCount. lookup_cases; try discriminate; exfalso;
      unfold Qle, inject_Z in *; simpl in *; lia. }
  assert (Havg : forall (legacy : bool) (n d : Z), 0 <= d <= 1000 ->
     someRowAdmits (ratio n d) (thresholdsAvgFilesPerCommit legacy) /\
     someRowAdmits (ratio n d) (thresholdsAvgLinesPerCommit legacy)).
  { intros legacy n d Hd. destruct (ratio_admitted legacy n d Hd) as [Hf Hl].
    split; apply someRowAdmits_matched; assumption. }
  split; [exact Hcount | split; [exact Havg |]].
  intros i Hlen. pose proof (countForAverages_bounds i) as Hc.
  unfold totalCommits in *. split; [apply Hcount; lia |].
  unfold avgFilesPerCommit, avgLinesPerCommit. split; apply Havg; lia.
Qed.

(** C7 on three commits, on the quotient 7/2 and on the lines per commit of
    the sample run. *)
Lemma tables_exhaustive_witness :
  someRowAdmits (inject_Z 3) thresholdsCommitsCount /\
  someRowAdmits (ratio 7 2) (thresholdsAvgFilesPerCommit false) /\
  someRowAdmits (avgLinesPerCommit sampleInput)
                (thresholdsAvgLinesPerCommit (isLegacy sampleInput)).
Proof.
  destruct tables_exhaustive_on_computed_values as (Hcount & Havg & Hinput).
  split; [apply (Hcount 3); lia |].
  split; [apply (Havg false 7 2); lia |].
  apply (Hinput sampleInput). simpl. lia.
Defined.

(** C7 as it is stated fails: no row of the commit-count table admits a
    count of 0, and no row of the standard files-per-commit table admits
    39.9995 (79999 files over 2000 commits); both lookups fall through to
    the default 1. *)
Lemma tables_not_exhaustive :
  matchedRow (inject_Z 0) thresholdsCommitsCount = None /\
  scoreByThresholds (inject_Z 0) thresholdsCommitsCount = 1 /\
  matchedRow (ratio 79999 2000) (thresholdsAvgFilesPerCommit false) = None /\
  scoreByThresholds (ratio 79999 2000) (thresholdsAvgFilesPerCommit false) = 1.
Proof. repeat split; vm_compute; reflexivity. Qed.

(** ** The observations table of complexity 4 *)

(** C10. At complexity 4 the observations score is at most 4 for every
    count of observations: it is 3 at 0 and 4 from 1 on.  The last row of
    the table, [{ min: 2, score: 5 }], admits every count from 2 on but
    comes after [{ min: 1, score: 4 }], and is never the row returned. *)
Theorem observations_score_level4 (n : nat) :
  let v := inject_Z (Z.of_nat n) in
  let table := thresholdsObservations 4 in
  scoreByThresholds v table <= 4 /\
  scoreByThresholds v table = (if Nat.eqb n 0 then 3 else 4) /\
  nth_error table 2 = Some observationsRow5 /\
  List.length table = 3%nat /\
  matchedRow v table <> Some 2%nat /\
  ((2 <= n)%nat <-> admits v observationsRow5).
Proof.
  intros v table.
  assert (Hs : scoreByThresholds v table = if Nat.eqb n 0 then 3 else 4).
  { subst v table. change (thresholdsObservations 4) with
      [ row None (Some 0%Q) 3; row (Some 1%Q) None 4; row (Some 2%Q) None 5 ].
    destruct n as [|n]; [reflexivity|].
    lookup_cases; try reflexivity; exfalso;
      unfold Qle, inject_Z in *; simpl in *; lia. }
  assert (Hm : matchedRow v table <> Some 2%nat).
  { subst v table. change (thresholdsObservations 4) with
      [ row None (Some 0%Q) 3; row (Some 1%Q) None 4; row (Some 2%Q) None 5 ].
    lookup_cases; try discriminate;
      unfold Qle, inject_Z in *; simpl in *; lia. }
  split; [rewrite Hs; destruct (Nat.eqb n 0); lia |].
  split; [exact Hs |].
  split; [reflexivity |].
  split; [reflexivity |].
  split; [exact Hm |].
  subst v. unfold admits, observationsRow5, row. simpl. split.
  - intros Hn. split; intros x Hx; [|discriminate].
    injection Hx as <-. unfold Qle, inject_Z; simpl; lia.
  - intros [Hmin _]. specialize (Hmin 2%Q eq_refl).
    unfold Qle, inject_Z in Hmin; simpl in Hmin; lia.
Qed.

(** The same holds for every value, integer or not. *)
Lemma observations_level4_any_value (v : Q) :
  scoreByThresholds v (thresholdsObservations 4) <= 4 /\
  matchedRow v (thresholdsObservations 4) <> Some 2%nat.
Proof.
  change (thresholdsObservations 4) with
    [ row None (Some 0%Q) 3; row (Some 1%Q) None 4; row (Some 2%Q) None 5 ].
  split; lookup_cases; try lia; try discriminate; lra.
Qed.

(** ** The close-time tables *)

Lemma hours_of_minutes (m : Z) : (inject_Z m / 60 == m # 60)%Q.
Proof. rewrite (Qmake_Qdiv m 60). reflexivity. Qed.

(** In the simple table a value of at most 0.5 scores 1 and a value from
    0.5001 to 1 scores 2. *)
Lemma closeTime_simple_short (v : Q) :
  ((v <= 0.5)%Q -> scoreByThresholds v (thresholdsCloseTimeHours 3) = 1) /\
  ((0.5001 <= v <= 1)%Q -> scoreByThresholds v (thresholdsCloseTimeHours 3) = 2).
Proof.
  change (thresholdsCloseTimeHours 3) with
    [ row (Some 32.0001%Q) None 1; row None (Some 0.5%Q) 1;
      row (Some 20.0001%Q) (Some 32%Q) 2; row (Some 0.5001%Q) (Some 1%Q) 2;
      row (Some 8.0001%Q) (Some 20%Q) 3; row (Some 4.0001%Q) (Some 8%Q) 4;
      row None (Some 4%Q) 5 ].
  split; intros H; lookup_cases; try reflexivity; exfalso; lra.
Qed.

(** Minutes are whole: more than half an hour is at least 31 minutes. *)
Lemma minutes_above_half_hour (m : Z) :
  (0.5 < inject_Z m / 60)%Q -> (0.5001 <= inject_Z m / 60)%Q.
Proof.
  rewrite !hours_of_minutes. unfold Qlt, Qle. simpl. lia.
Qed.

(** C6, as the code has it. The close-time table is chosen by the
    complexity computed before: above 3 the complex table, otherwise the
    simple one.  The complex table has five rows, scoring 1 to 5, cut at 4,
    8, 20 and 32 hours.  The simple table is the complex one with two rows
    added, [{ max: 0.5, score: 1 }] second and
    [{ min: 0.5001, max: 1, score: 2 }] fourth, so that every value of at
    most 0.5 scores 1 and every value from 0.5001 to 1 scores 2; the hours
    of a run are whole minutes over 60, so for every run of complexity at
    most 3 close hours of at most 0.5 score 1 and close hours in (0.5, 1]
    score 2. *)
Theorem closeTime_table_selection :
  (forall c : Z, 3 < c -> thresholdsCloseTimeHours c = thresholdsCloseTimeHours 4) /\
  (forall c : Z, c <= 3 -> thresholdsCloseTimeHours c = thresholdsCloseTimeHours 3) /\
  thresholdsCloseTimeHours 4 =
    [ row (Some 32.0001%Q) None 1; row (Some 20.0001%Q) (Some 32%Q) 2;
      row (Some 8.0001%Q) (Some 20%Q) 3; row (Some 4.0001%Q) (Some 8%Q) 4;
      row None (Some 4%Q) 5 ] /\
  (forall r1 r2 rest, thresholdsCloseTimeHours 4 = r1 :: r2 :: rest ->
     thresholdsCloseTimeHours 3 =
       r1 :: row None (Some 0.5%Q) 1 :: r2 :: row (Some 0.5001%Q) (Some 1%Q) 2 :: rest) /\
  (forall v : Q, (v <= 0.5)%Q ->
     scoreByThresholds v (thresholdsCloseTimeHours 3) = 1) /\
  (forall v : Q, (0.5001 <= v <= 1)%Q ->
     scoreByThresholds v (thresholdsCloseTimeHours 3) = 2) /\
  (forall (toZonedParts : Z -> string -> ZonedParts) (cfg : Config) (i : Input),
     s_closeTime toZonedParts cfg i =
       scoreByThresholds (closeHours toZonedParts cfg i)
                         (thresholdsCloseTimeHours (complexity i)) /\
     (complexity i <= 3 ->
        ((closeHours toZonedParts cfg i <= 0.5)%Q -> s_closeTime toZonedParts cfg i = 1) /\
        ((0.5 < closeHours toZonedParts cfg i <= 1)%Q -> s_closeTime toZonedParts cfg i = 2))).
Proof.
  assert (Hsimple : forall c : Z, c <= 3 ->
            thresholdsCloseTimeHours c = thresholdsCloseTimeHours 3).
  { intros c Hc. unfold thresholdsCloseTimeHours.
    destruct (Z.ltb_spec 3 c); [lia | reflexivity]. }
  split.
  { intros c Hc. unfold thresholdsCloseTimeHours.
    destruct (Z.ltb_spec 3 c); [reflexivity | lia]. }
  split; [exact Hsimple |].
  split; [reflexivity |].
  split.
  { intros r1 r2 rest H. injection H as <- <- <-. reflexivity. }
  split; [intros v; apply closeTime_simple_short |].
  split; [intros v; apply closeTime_simple_short |].
  intros tzp cfg i. split; [reflexivity |].
  intros Hc. unfold s_closeTime. rewrite (Hsimple _ Hc). split.
  - apply closeTime_simple_short.
  - intros [Hlo Hhi]. apply closeTime_simple_short. split; [|exact Hhi].
    apply minutes_above_half_hour. exact Hlo.
Qed.

(** C6 as it is stated fails twice: the complex table has five rows, not
    four; and in the simple table the value 0.50005, between 0.5 and
    0.5001, is admitted by the last row only and scores 5, not 2. *)
Lemma closeTime_claim_fails :
  List.length (thresholdsCloseTimeHours 4) = 5%nat /\
  map Range.score (thresholdsCloseTimeHours 4) = [1; 2; 3; 4; 5] /\
  Qle_bool 0.50005 1 = true /\ Qle_bool 0.50005 0.5 = false /\
  scoreByThresholds 0.50005%Q (thresholdsCloseTimeHours 3) = 5.
Proof. repeat split; vm_compute; reflexivity. Qed.

(** ** The weighted average *)

Lemma reduce_weights (items : list Item.t) (a : Q) :
  (fold_left (fun s it => s + Item.weight it) items a == a + sumWeights items)%Q.
Proof.
  revert a. induction items as [|it items IH]; intros a; simpl.
  - ring.
  - rewrite IH. ring.
Qed.

Lemma reduce_scores (items : list Item.t) (a : Q) :
  (fold_left (fun s it => s + inject_Z (Item.score it) * Item.weight it) items a
   == a + sumScores items)%Q.
Proof.
  revert a. induction items as [|it items IH]; intros a; simpl.
  - ring.
  - rewrite IH. ring.
Qed.

(** [weightedAvg] is [Σ(score·weight) / Σ(weight)], or 0 if the total
    weight is 0. *)
Lemma weightedAvg_quotient (items : list Item.t) :
  (~ sumWeights items == 0 -> weightedAvg items == sumScores items / sumWeights items)%Q
  /\ (sumWeights items == 0 -> weightedAvg items == 0)%Q.
Proof.
  unfold weightedAvg.
  pose proof (reduce_weights items 0) as Hd. pose proof (reduce_scores items 0) as Hn.
  rewrite Qplus_0_l in Hd, Hn.
  destruct (Qeq_bool _ 0) eqn:E.
  - apply Qeq_bool_iff in E. rewrite Hd in E. split; [intros H; contradiction | reflexivity].
  - apply Qeq_bool_neq in E. rewrite Hd in E. split; [|intros H; contradiction].
    intros _. rewrite Hn, Hd. reflexivity.
Qed.

(** With positive weights the average lies between any bounds of the
    scores. *)
Lemma sums_bounds (lo hi : Q) (items : list Item.t) :
  (forall it, In it items ->
     (0 < Item.weight it /\ lo <= inject_Z (Item.score it) <= hi)%Q) ->
  (0 <= sumWeights items /\
   lo * sumWeights items <= sumScores items <= hi * sumWeights items)%Q.
Proof.
  induction items as [|it items IH]; intros H; simpl.
  - split; [|split]; lra.
  - destruct IH as (Hw & Hlo & Hhi); [intros x Hx; apply H; right; exact Hx|].
    destruct (H it (or_introl eq_refl)) as (Hpos & Hl & Hh).
    assert (lo * Item.weight it <= inject_Z (Item.score it) * Item.weight it)%Q
      by (apply Qmult_le_compat_r; lra).
    assert (inject_Z (Item.score it) * Item.weight it <= hi * Item.weight it)%Q
      by (apply Qmult_le_compat_r; lra).
    split; [|split]; lra.
Qed.

Lemma weightedAvg_bounds (lo hi : Q) (items : list Item.t) :
  items <> [] ->
  (forall it, In it items ->
     (0 < Item.weight it /\ lo <= inject_Z (Item.score it) <= hi)%Q) ->
  (lo <= weightedAvg items <= hi)%Q.
Proof.
  intros Hne H. destruct items as [|it items]; [contradiction Hne; reflexivity|].
  destruct (sums_bounds lo hi (it :: items) H) as (_ & Hlo & Hhi).
  assert (Hpos : (0 < sumWeights (it :: items))%Q).
  { destruct (sums_bounds lo hi items) as (Hw & _);
      [intros x Hx; apply H; right; exact Hx|].
    destruct (H it (or_introl eq_refl)) as (Hp & _). simpl. lra. }
  destruct (weightedAvg_quotient (it :: items)) as [Hq _].
  rewrite Hq by lra. split.
  - apply Qle_shift_div_l; assumption.
  - apply Qle_shift_div_r; assumption.
Qed.

(** A single item: the average is its score, whatever the weight, as long
    as the weight is not 0. *)
Lemma weightedAvg_single (s : Z) (w : Q) :
  (0 < w)%Q -> (weightedAvg [item s w] == inject_Z s)%Q.
Proof.
  intros Hw. destruct (weightedAvg_quotient [item s w]) as [Hq _].
  rewrite Hq; simpl; [field | ]; lra.
Qed.

(** In binary64 a single item of weight 1 averages to its score. *)
Lemma binary64_single_weight_one (s : Z) :
  In s Binary64.scores ->
  Binary64.weightedAvg [Binary64.item s 1] = Binary64.ofZ s.
Proof.
  unfold Binary64.scores. simpl.
  intros [<- | [<- | [<- | [<- | [<- | []]]]]]; vm_compute; reflexivity.
Qed.

(** C9, as the code has it. [weightedAvg] of the empty list is 0.  In exact
    arithmetic a single item of weight [w > 0] averages to its score,
    whatever [w].  In the binary64 arithmetic of the script the empty list
    gives 0 too, and a single item of weight 1 (the one such call, M4)
    averages to its score exactly. *)
Theorem weightedAvg_empty_and_single :
  weightedAvg [] = 0%Q /\
  (forall (s : Z) (w : Q), (0 < w)%Q -> (weightedAvg [item s w] == inject_Z s)%Q) /\
  Binary64.weightedAvg [] = 0%float /\
  (forall s : Z, 1 <= s <= 5 ->
     Binary64.weightedAvg [Binary64.item s 1] = Binary64.ofZ s /\
     Binary64.M4 s = Binary64.ofZ s).
Proof.
  split; [reflexivity |].
  split; [exact weightedAvg_single |].
  split; [reflexivity |].
  intros s Hs.
  assert (Hin : In s Binary64.scores) by (unfold Binary64.scores; simpl; lia).
  split; apply binary64_single_weight_one; exact Hin.
Qed.

(** C9 on the item of score 3: weight 0.1 in exact arithmetic, weight 1 in
    binary64. *)
Lemma weightedAvg_single_witness :
  (weightedAvg [item 3 0.1] == inject_Z 3)%Q /\
  Binary64.weightedAvg [Binary64.item 3 1] = Binary64.ofZ 3.
Proof.
  destruct weightedAvg_empty_and_single as (_ & Hexact & _ & Hone).
  split.
  - apply (Hexact 3 0.1%Q). reflexivity.
  - apply (Hone 3). lia.
Defined.

(** C9 as it is stated fails on the numbers of the script: for the single
    item of score 3 and weight 0.1 the product 3 * 0.1 rounds to
    0.30000000000000004 and the quotient by 0.1 to 3.0000000000000004,
    which is not the score. *)
Lemma weightedAvg_single_rounds :
  PrimFloat.ltb 0 0.1 = true /\
  PrimFloat.mul (Binary64.ofZ 3) 0.1 = 0.30000000000000004%float /\
  Binary64.weightedAvg [Binary64.item 3 0.1] = 3.0000000000000004%float /\
  PrimFloat.eqb (Binary64.weightedAvg [Binary64.item 3 0.1]) (Binary64.ofZ 3) = false.
Proof. repeat split; vm_compute; reflexivity. Qed.

(** ** Complexity *)

Lemma Math_round_Qeq (x y : Q) : (x == y)%Q -> Math_round x = Math_round y.
Proof. intros E. unfold Math_round. rewrite E. reflexivity. Qed.

(** The weights of the complexity add up to 1: the weighted average is the
    weighted sum. *)
Lemma complexity_average (a b c d : Z) :
  (weightedAvg [item a 0.20; item b 0.25; item c 0.25; item d 0.30]
   == 0.20 * inject_Z a + 0.25 * inject_Z b + 0.25 * inject_Z c + 0.30 * inject_Z d)%Q.
Proof.
  destruct (weightedAvg_quotient [item a 0.20; item b 0.25; item c 0.25; item d 0.30])
    as [Hq _].
  rewrite Hq; simpl; [field | lra].
Qed.

(** C5. When the change is flagged as not functional the complexity is 5,
    whatever the other metrics.  Otherwise it is the weighted average of the
    scores of the commit count, the average files, the average lines and the
    lines modified, with the weights 0.20, 0.25, 0.25 and 0.30, rounded and
    clamped to 1..5. *)
Theorem complexity_rule (i : Input) :
  complexity i =
    (if isFunctional i then
       Z.min 5 (Z.max 1 (Math_round
         ((inject_Z (s_commitsCount i) * 0.20 + inject_Z (s_avgFiles i) * 0.25 +
           inject_Z (s_avgLines i) * 0.25 + inject_Z (s_linesModified i) * 0.30)
          / (0.20 + 0.25 + 0.25 + 0.30))%Q))
     else 5)
  /\ (isFunctional i = false -> complexity i = 5)
  /\ 1 <= complexity i <= 5.
Proof.
  unfold complexity. destruct (isFunctional i); cbn [negb].
  - split; [|split; [discriminate | lia]].
    f_equal. f_equal. apply Math_round_Qeq.
    rewrite complexity_average. field.
  - split; [reflexivity | split; [reflexivity | lia]].
Qed.

(** In binary64 the complexity is the same integer, for all scores of the
    four signals: the rounding of the average never crosses a half. *)
Lemma binary64_complexity_agrees :
  forallb (fun a => forallb (fun b => forallb (fun c => forallb (fun d =>
     PrimFloat.eqb
       (Binary64.complexity a b c d)
       (Binary64.ofZ (Z.min 5 (Z.max 1 (Math_round
          (weightedAvg [item a 0.20; item b 0.25; item c 0.25; item d 0.30]))))))
     Binary64.scores) Binary64.scores) Binary64.scores) Binary64.scores = true.
Proof. vm_compute. reflexivity. Qed.

(** C5 on the stale run: 5 when it is flagged as not functional, 1 (four
    scores of 1) when it is functional. *)
Lemma complexity_rule_witness :
  complexity stalePRChore = 5 /\ complexity stalePR = 1.
Proof.
  split.
  - apply (complexity_rule stalePRChore). reflexivity.
  - rewrite (proj1 (complexity_rule stalePR)). reflexivity.
Defined.

(** ** Ranges of the scores and of the categories *)

Lemma scoreByThresholds_range (value : Q) (table : list Range.t) :
  scoresWithin table -> 1 <= scoreByThresholds value table <= 5.
Proof.
  induction 1 as [|r rest Hr _ IH]; simpl; [lia|].
  destruct (okMin value r && okMax value r); assumption.
Qed.

Ltac table_scores := unfold scoresWithin; repeat constructor; simpl; lia.

Lemma commitsCount_scores : scoresWithin thresholdsCommitsCount.
Proof. table_scores. Qed.

Lemma avgFiles_scores (legacy : bool) : scoresWithin (thresholdsAvgFilesPerCommit legacy).
Proof. destruct legacy; table_scores. Qed.

Lemma avgLines_scores (legacy : bool) : scoresWithin (thresholdsAvgLinesPerCommit legacy).
Proof. destruct legacy; table_scores. Qed.

Lemma linesModified_scores (legacy : bool) : scoresWithin (thresholdsLinesModified legacy).
Proof. destruct legacy; table_scores. Qed.

Lemma closeTime_scores (c : Z) : scoresWithin (thresholdsCloseTimeHours c).
Proof. unfold thresholdsCloseTimeHours. destruct (3 <? c); table_scores. Qed.

Lemma observations_scores (c : Z) : scoresWithin (thresholdsObservations c).
Proof.
  unfold thresholdsObservations.
  destruct ((1 <=? c) && (c <? 3)); [table_scores|].
  destruct ((3 <=? c) && (c <? 4)); [table_scores|].
  destruct ((4 <=? c) && (c <? 5)); table_scores.
Qed.

(** In binary64 too every category lies in [1, 5], for all scores its
    signals can take. *)
Lemma binary64_categories_checked :
  forallb (fun a => forallb (fun b => forallb (fun c => forallb (fun d =>
     Binary64.within (Binary64.M1 a b c d)) Binary64.scores) Binary64.scores)
     Binary64.scores) Binary64.scores = true /\
  forallb (fun a => forallb (fun b => forallb (fun c =>
     Binary64.within (Binary64.M2 a b c)) Binary64.scores) Binary64.scores)
     Binary64.scores = true /\
  forallb (fun a => forallb (fun b =>
     Binary64.within (Binary64.M3 a b)) Binary64.scores) Binary64.scores = true /\
  forallb (fun a => Binary64.within (Binary64.M4 a)) Binary64.scores = true.
Proof. repeat split; vm_compute; reflexivity. Qed.

Lemma in_scores (s : Z) : 1 <= s <= 5 -> In s Binary64.scores.
Proof. unfold Binary64.scores. simpl. lia. Qed.

Lemma binary64_categories_in_range (a b c d : Z) :
  1 <= a <= 5 -> 1 <= b <= 5 -> 1 <= c <= 5 -> 1 <= d <= 5 ->
  Binary64.within (Binary64.M1 a b c d) = true /\
  Binary64.within (Binary64.M2 a b c) = true /\
  Binary64.within (Binary64.M3 a b) = true /\
  Binary64.within (Binary64.M4 a) = true.
Proof.
  intros Ha Hb Hc Hd.
  apply in_scores in Ha, Hb, Hc, Hd.
  destruct binary64_categories_checked as (H1 & H2 & H3 & H4).
  repeat split.
  - rewrite forallb_forall in H1. specialize (H1 a Ha). cbv beta in H1.
    rewrite forallb_forall in H1. specialize (H1 b Hb). cbv beta in H1.
    rewrite forallb_forall in H1. specialize (H1 c Hc). cbv beta in H1.
    rewrite forallb_forall in H1. exact (H1 d Hd).
  - rewrite forallb_forall in H2. specialize (H2 a Ha). cbv beta in H2.
    rewrite forallb_forall in H2. specialize (H2 b Hb). cbv beta in H2.
    rewrite forallb_forall in H2. exact (H2 c Hc).
  - rewrite forallb_forall in H3. specialize (H3 a Ha). cbv beta in H3.
    rewrite forallb_forall in H3. exact (H3 b Hb).
  - rewrite forallb_forall in H4. exact (H4 a Ha).
Qed.

(** Every signal is scored from 1 to 5. *)
Lemma signal_scores_in_range
  (toZonedParts : Z -> string -> ZonedParts) (cfg : Config) (i : Input) :
  Forall (fun s => 1 <= s <= 5)
    [ s_commitsCount i; s_avgFiles i; s_avgLines i; s_commitStandard i;
      s_linesModified i; s_closeTime toZonedParts cfg i; s_observations i;
      s_approvals i; s_declined i; s_branch i ].
Proof.
  repeat constructor.
  - apply scoreByThresholds_range, commitsCount_scores.
  - apply scoreByThresholds_range, commitsCount_scores.
  - apply scoreByThresholds_range, avgFiles_scores.
  - apply scoreByThresholds_range, avgFiles_scores.
  - apply scoreByThresholds_range, avgLines_scores.
  - apply scoreByThresholds_range, avgLines_scores.
  - unfold s_commitStandard. repeat destruct (Qle_bool _ _); lia.
  - unfold s_commitStandard. repeat destruct (Qle_bool _ _); lia.
  - apply scoreByThresholds_range, linesModified_scores.
  - apply scoreByThresholds_range, linesModified_scores.
  - apply scoreByThresholds_range, closeTime_scores.
  - apply scoreByThresholds_range, closeTime_scores.
  - apply scoreByThresholds_range, observations_scores.
  - apply scoreByThresholds_range, observations_scores.
  - unfold s_approvals. repeat destruct (_ <? _); repeat destruct (_ =? _); lia.
  - unfold s_approvals. repeat destruct (_ <? _); repeat destruct (_ =? _); lia.
  - unfold s_declined. destruct (_ =? _); lia.
  - unfold s_declined. destruct (_ =? _); lia.
  - unfold s_branch. destruct (branchOk i); lia.
  - unfold s_branch. destruct (branchOk i); lia.
Qed.

Lemma inject_Z_range (s : Z) : 1 <= s <= 5 -> (1 <= inject_Z s <= 5)%Q.
Proof. intros [H1 H5]. unfold Qle, inject_Z. simpl. lia. Qed.

(** A list of items with positive weights and scores from 1 to 5 averages
    to a value from 1 to 5. *)
Lemma category_range (items : list Item.t) :
  items <> [] ->
  Forall (fun it => (0 < Item.weight it)%Q /\ 1 <= Item.score it <= 5) items ->
  (1 <= weightedAvg items <= 5)%Q.
Proof.
  intros Hne H. apply weightedAvg_bounds; [exact Hne|].
  rewrite Forall_forall in H. intros it Hit. destruct (H it Hit) as [Hw Hs].
  split; [exact Hw | apply inject_Z_range; exact Hs].
Qed.

(** C8. For every input each of the ten signal scores is an integer from 1
    to 5, and each of the categories M1, M2, M3 and M4 is a number from 1 to
    5; the categories stay within 1 and 5 in binary64 as well, for all
    scores of their signals. *)
Theorem scores_and_categories_in_range
  (toZonedParts : Z -> string -> ZonedParts) (cfg : Config) (i : Input) :
  Forall (fun s => 1 <= s <= 5)
    [ s_commitsCount i; s_avgFiles i; s_avgLines i; s_commitStandard i;
      s_linesModified i; s_closeTime toZonedParts cfg i; s_observations i;
      s_approvals i; s_declined i; s_branch i ] /\
  Forall (fun m => (1 <= m <= 5)%Q)
    [ M1 i; M2 i; M3 toZonedParts cfg i; M4 i ] /\
  Binary64.within
    (Binary64.M1 (s_commitsCount i) (s_avgFiles i) (s_avgLines i) (s_commitStandard i))
    = true /\
  Binary64.within (Binary64.M2 (s_approvals i) (s_declined i) (s_branch i)) = true /\
  Binary64.within (Binary64.M3 (s_closeTime toZonedParts cfg i) (s_linesModified i))
    = true /\
  Binary64.within (Binary64.M4 (s_observations i)) = true.
Proof.
  pose proof (signal_scores_in_range toZonedParts cfg i) as Hs.
  split; [exact Hs |].
  rewrite Forall_forall in Hs.
  assert (Hin : forall s,
            In s [ s_commitsCount i; s_avgFiles i; s_avgLines i; s_commitStandard i;
                   s_linesModified i; s_closeTime toZonedParts cfg i; s_observations i;
                   s_approvals i; s_declined i; s_branch i ] -> 1 <= s <= 5)
    by exact Hs.
  assert (H1 : 1 <= s_commitsCount i <= 5) by (apply Hin; simpl; tauto).
  assert (H2 : 1 <= s_avgFiles i <= 5) by (apply Hin; simpl; tauto).
  assert (H3 : 1 <= s_avgLines i <= 5) by (apply Hin; simpl; tauto).
  assert (H4 : 1 <= s_commitStandard i <= 5) by (apply Hin; simpl; tauto).
  assert (H5 : 1 <= s_linesModified i <= 5) by (apply Hin; simpl; tauto).
  assert (H6 : 1 <= s_closeTime toZonedParts cfg i <= 5) by (apply Hin; simpl; tauto).
  assert (H7 : 1 <= s_observations i <= 5) by (apply Hin; simpl; tauto).
  assert (H8 : 1 <= s_approvals i <= 5) by (apply Hin; simpl; tauto).
  assert (H9 : 1 <= s_declined i <= 5) by (apply Hin; simpl; tauto).
  assert (H10 : 1 <= s_branch i <= 5) by (apply Hin; simpl; tauto).
  split.
  { repeat constructor;
      try (apply category_range; [discriminate | repeat constructor; simpl; lia]);
      apply category_range; try discriminate; repeat constructor; simpl; lia. }
  split; [apply (binary64_categories_in_range _ _ _ _ H1 H2 H3 H4) |].
  split; [apply (binary64_categories_in_range _ _ _ _ H8 H9 H10 H10) |].
  split; [apply (binary64_categories_in_range _ _ _ _ H6 H5 H5 H5) |].
  apply (binary64_categories_in_range _ _ _ _ H7 H7 H7 H7).
Qed.

(** ** Maturity *)

Lemma stale_penalty (i : Input) :
  (state (pr i) = "open"%string /\ (7 < ageDays i)%Q -> m5Penalty i = 0.5%Q) /\
  (~ (state (pr i) = "open"%string /\ (7 < ageDays i)%Q) -> m5Penalty i = 0%Q).
Proof.
  unfold m5Penalty.
  destruct (String.eqb_spec (state (pr i)) "open") as [Ho | Ho];
    destruct (Qle_bool (ageDays i) 7) eqn:Ha; cbn [andb negb].
  - apply Qle_bool_iff in Ha. split; [intros [_ H]; exfalso; lra | reflexivity].
  - apply not_true_iff_false in Ha. rewrite Qle_bool_iff in Ha.
    split; [reflexivity |]. intros H. exfalso. apply H. split; [exact Ho | lra].
  - split; [intros [H _]; contradiction | reflexivity].
  - split; [intros [H _]; contradiction | reflexivity].
Qed.

(** The age in days exceeds 7 exactly when more than seven days of
    milliseconds have elapsed since the creation. *)
Lemma ageDays_over_seven (i : Input) :
  (7 < ageDays i)%Q <-> 7 * 86400000 < now i - created_at (pr i).
Proof.
  unfold ageDays, createdAt.
  change (inject_Z (1000 * 60 * 60 * 24)) with (inject_Z 86400000).
  generalize (now i - created_at (pr i)). intros d.
  unfold Qlt, Qdiv, Qmult, Qinv, inject_Z. cbn [Qnum Qden].
  rewrite Z.mul_1_r. change (Z.pos (1 * 86400000)) with 86400000.
  change (Z.pos 1) with 1. lia.
Qed.

(** C2. For every run the maturity is M1·0.25 + M2·0.15 + M3·0.35 +
    M4·0.25, less 0.5 exactly when the pull request is still open and more
    than 7 days old, that is when now − created is more than 7 · 86400000
    milliseconds, and nothing raises it afterwards: the stale run ends at
    0.74.  An open pull request of exactly seven days takes no penalty, one
    of seven days and a millisecond takes it.  With the four categories at 5
    and no penalty it is 5, in exact arithmetic and in binary64; for a pull
    request that is still open after 30 days it is the weighted sum less
    0.5. *)
Theorem maturity_formula :
  (forall (toZonedParts : Z -> string -> ZonedParts) (cfg : Config) (i : Input),
     let sum := (M1 i * 0.25 + M2 i * 0.15 + M3 toZonedParts cfg i * 0.35 + M4 i * 0.25)%Q in
     let stale := state (pr i) = "open"%string /\
                  7 * 86400000 < now i - created_at (pr i) in
     (stale -> (maturity toZonedParts cfg i == sum - 0.5)%Q) /\
     (~ stale -> (maturity toZonedParts cfg i == sum)%Q) /\
     (stale <-> m5Penalty i = 0.5%Q) /\
     (~ stale <-> m5Penalty i = 0%Q) /\
     (ageDays i * 86400000 == inject_Z (now i - created_at (pr i)))%Q /\
     (state (pr i) = "open"%string -> now i - created_at (pr i) = 30 * 86400000 ->
      (maturity toZonedParts cfg i == sum - 0.5)%Q)) /\
  m5Penalty (atTimes stalePR (nowClosed stalePR)
                     (created_at (pr stalePR) + 7 * 86400000)) = 0%Q /\
  m5Penalty (atTimes stalePR (nowClosed stalePR)
                     (created_at (pr stalePR) + 7 * 86400000 + 1)) = 0.5%Q /\
  (5 * 0.25 + 5 * 0.15 + 5 * 0.35 + 5 * 0.25 == 5)%Q /\
  (forall (toZonedParts : Z -> string -> ZonedParts) (cfg : Config) (i : Input),
     (M1 i == 5 -> M2 i == 5 -> M3 toZonedParts cfg i == 5 -> M4 i == 5 ->
      m5Penalty i == 0 -> maturity toZonedParts cfg i == 5)%Q) /\
  Binary64.weightedSum 5 5 5 5 = 5%float /\
  Binary64.weightedSum (Binary64.M1 5 5 5 5) (Binary64.M2 5 5 5)
                       (Binary64.M3 5 5) (Binary64.M4 5) = 5%float /\
  (maturity santoDomingo defaultConfig stalePR == 0.74)%Q.
Proof.
  split.
  { intros tzp cfg i sum stale. subst sum stale.
    destruct (stale_penalty i) as [Hp Hn]. rewrite (ageDays_over_seven i) in Hp, Hn.
    unfold maturity, weightedSum.
    split; [intros H; rewrite (Hp H); reflexivity |].
    split; [intros H; rewrite (Hn H); ring |].
    split.
    { split; [exact Hp |]. intros E.
      destruct (String.eqb_spec (state (pr i)) "open") as [Ho | Ho];
        destruct (Z_lt_le_dec (7 * 86400000) (now i - created_at (pr i))) as [Ha | Ha];
        try (split; assumption);
        rewrite Hn in E by (intros [? ?]; (contradiction || lia)); discriminate E. }
    split.
    { split; [exact Hn |]. intros E H. rewrite (Hp H) in E. discriminate E. }
    split.
    { unfold ageDays, createdAt.
      change (inject_Z (1000 * 60 * 60 * 24)) with (inject_Z 86400000).
      generalize (now i - created_at (pr i)). intros d.
      unfold Qeq, Qdiv, Qmult, Qinv, inject_Z. cbn [Qnum Qden]. lia. }
    intros Ho H30. rewrite Hp; [reflexivity |]. split; [exact Ho | lia]. }
  split; [reflexivity |].
  split; [reflexivity |].
  split; [reflexivity |].
  split.
  { intros tzp cfg i E1 E2 E3 E4 E5. unfold maturity, weightedSum.
    rewrite E1, E2, E3, E4, E5. reflexivity. }
  split; [vm_compute; reflexivity |].
  split; [vm_compute; reflexivity |].
  vm_compute. reflexivity.
Qed.

(** C2 on the stale run, thirty days old, which takes the penalty; on the
    same pull request three days after its creation, open and without
    penalty; and on the sample run, which is closed and takes none. *)
Lemma maturity_formula_witness :
  (maturity santoDomingo defaultConfig stalePR ==
   M1 stalePR * 0.25 + M2 stalePR * 0.15 + M3 santoDomingo defaultConfig stalePR * 0.35
   + M4 stalePR * 0.25 - 0.5)%Q /\
  m5Penalty (atTimes stalePR (nowClosed stalePR)
                     (created_at (pr stalePR) + 3 * 86400000)) = 0%Q /\
  (maturity santoDomingo defaultConfig sampleInput ==
   M1 sampleInput * 0.25 + M2 sampleInput * 0.15
   + M3 santoDomingo defaultConfig sampleInput * 0.35 + M4 sampleInput * 0.25)%Q.
Proof.
  destruct maturity_formula as (Hall & _).
  split; [|split].
  - apply (proj1 (Hall santoDomingo defaultConfig stalePR)).
    split; reflexivity.
  - apply (proj1 (proj2 (proj2 (proj2
             (Hall santoDomingo defaultConfig
                   (atTimes stalePR (nowClosed stalePR)
                            (created_at (pr stalePR) + 3 * 86400000))))))).
    intros [_ H]. revert H. apply Z.le_ngt. discriminate.
  - apply (proj1 (proj2 (Hall santoDomingo defaultConfig sampleInput))).
    intros [Ho _]. discriminate Ho.
Defined.

(** ** The business-hours clock *)

Section ClockProperties.

Variable toZonedParts : Z -> string -> ZonedParts.
Variable cfg : Config.

Lemma isWeekday_onWorkDay (p : ZonedParts) :
  isWeekday (weekday p) = true <-> onWorkDay p.
Proof.
  unfold isWeekday, onWorkDay. rewrite existsb_exists. split.
  - intros (d & Hd & E). apply String.eqb_eq in E. subst d. exact Hd.
  - intros H. exists (weekday p). split; [exact H | apply String.eqb_refl].
Qed.

(** The code's test of the start, in minutes of the day. *)
Lemma startInWork_minutes (startUtc : Z) (tz : string) :
  startInWork toZonedParts cfg startUtc tz = true <->
  onWorkDay (toZonedParts startUtc tz) /\
  workStartMinute cfg <= minuteOfDay (toZonedParts startUtc tz) <= workEndMinute cfg.
Proof.
  unfold startInWork, minuteOfDay, workStartMinute, workEndMinute, minutesOf, ws, we,
    minutesSinceMidnight.
  set (p := toZonedParts startUtc tz).
  rewrite !andb_true_iff, !Z.leb_le, (isWeekday_onWorkDay p). split.
  - intros [[Hd H1] H2]. split; [exact Hd | lia].
  - intros [Hd H]. split; [split; [exact Hd | lia] | lia].
Qed.

Lemma endBeforeCutoff_minutes (endUtc : Z) (tz : string) :
  endBeforeCutoffSameOrNext toZonedParts cfg endUtc tz = true <->
  minuteOfDay (toZonedParts endUtc tz) <= cutoffMinute cfg.
Proof.
  unfold endBeforeCutoffSameOrNext, minuteOfDay, cutoffMinute, minutesOf, cutoffMin,
    minutesSinceMidnight.
  rewrite Z.leb_le. split; lia.
Qed.

(** The time of day lies within its minute. *)
Lemma time_within_minute (p : ZonedParts) (t : Z) :
  0 <= second p <= 59 ->
  minuteOfDay p * 60000 <= timeOfDayMs p t < (minuteOfDay p + 1) * 60000.
Proof.
  intros Hs. unfold timeOfDayMs, minuteOfDay, minutesSinceMidnight.
  pose proof (Z.mod_pos_bound t 1000 ltac:(lia)). lia.
Qed.

(** The code takes the start for outside the work window exactly when it
    is outside and not within the minute of the work end. *)
Lemma startInWork_false (startUtc : Z) (tz : string) :
  wellFormedClock toZonedParts tz ->
  (startInWork toZonedParts cfg startUtc tz = false <->
   outsideWorkWindow cfg (toZonedParts startUtc tz) startUtc /\
   ~ pastWorkEndWithinMinute cfg (toZonedParts startUtc tz) startUtc).
Proof.
  intros Hwf.
  pose proof (time_within_minute (toZonedParts startUtc tz) startUtc (Hwf startUtc)) as Ht.
  pose proof (startInWork_minutes startUtc tz) as Hin.
  unfold outsideWorkWindow, pastWorkEndWithinMinute.
  set (p := toZonedParts startUtc tz) in *.
  destruct (startInWork toZonedParts cfg startUtc tz).
  - destruct (proj1 Hin eq_refl) as [Hd Hm]. split; [discriminate |].
    intros [[Hn | [_ Ho]] Hp]; [contradiction |].
    exfalso. apply Hp. repeat split; try assumption; lia.
  - split; [|reflexivity]. intros _.
    assert (Hno : ~ (onWorkDay p /\ workStartMinute cfg <= minuteOfDay p <= workEndMinute cfg))
      by (intros C; apply Hin in C; discriminate).
    split.
    + destruct (in_dec string_dec (weekday p) ["Mon"; "Tue"; "Wed"; "Thu"; "Fri"]%string)
        as [Hd | Hd]; [|left; exact Hd].
      right. split; [exact Hd |].
      assert (minuteOfDay p < workStartMinute cfg \/ workEndMinute cfg < minuteOfDay p)
        by (destruct (Z_lt_le_dec (minuteOfDay p) (workStartMinute cfg)); [tauto |];
            destruct (Z_lt_le_dec (workEndMinute cfg) (minuteOfDay p)); [tauto |];
            exfalso; apply Hno; split; [exact Hd | lia]).
      lia.
    + intros (Hd & Hw & Hm & _). apply Hno. split; [exact Hd | lia].
Qed.

(** The code takes the end for at or before the cutoff exactly when it is,
    or when it is within the minute of the cutoff. *)
Lemma endBeforeCutoff_true (endUtc : Z) (tz : string) :
  wellFormedClock toZonedParts tz ->
  (endBeforeCutoffSameOrNext toZonedParts cfg endUtc tz = true <->
   atOrBeforeCutoff cfg (toZonedParts endUtc tz) endUtc \/
   pastCutoffWithinMinute cfg (toZonedParts endUtc tz) endUtc).
Proof.
  intros Hwf. rewrite endBeforeCutoff_minutes.
  pose proof (time_within_minute (toZonedParts endUtc tz) endUtc (Hwf endUtc)) as Ht.
  unfold atOrBeforeCutoff, pastCutoffWithinMinute. split.
  - intros H.
    destruct (Z_le_gt_dec (timeOfDayMs (toZonedParts endUtc tz) endUtc)
                          (cutoffMinute cfg * 60000)); [left; assumption |].
    right. split; lia.
  - intros [H | [H _]]; lia.
Qed.

(** Rounding a number of milliseconds to minutes. *)
Lemma round_minutes (d : Z) :
  Math_round (inject_Z d / 60000) = (d + 30000) / 60000.
Proof.
  unfold Math_round. rewrite (Zdiv_Qdiv (d + 30000) 60000).
  apply Qfloor_comp. rewrite inject_Z_plus. field.
Qed.

(** C3, as the code has it. For every pair of instants with the end after
    the start: if the start is outside the work window (on a day that is not
    a work day, or on a work day before the work start or after the work
    end), other than within the minute that begins at the work end, and the
    local time of the end is at or before the morning cutoff,
    [businessMinutesBetween] returns the whole elapsed time from start to
    end in minutes: the elapsed milliseconds over 60000, rounded; exactly
    the minutes when they are whole.  The code reads local times to the
    minute: a start within the minute of the work end counts as inside. *)
Theorem carve_out_counts_everything (startUtc endUtc : Z) (tz : string) :
  wellFormedClock toZonedParts tz ->
  startUtc < endUtc ->
  outsideWorkWindow cfg (toZonedParts startUtc tz) startUtc ->
  ~ pastWorkEndWithinMinute cfg (toZonedParts startUtc tz) startUtc ->
  atOrBeforeCutoff cfg (toZonedParts endUtc tz) endUtc ->
  businessMinutesBetween toZonedParts cfg startUtc endUtc tz
    = Math_round (inject_Z (endUtc - startUtc) / 60000) /\
  (forall k : Z, endUtc - startUtc = 60000 * k ->
     businessMinutesBetween toZonedParts cfg startUtc endUtc tz = k) /\
  - 30000 < 60000 * businessMinutesBetween toZonedParts cfg startUtc endUtc tz
            - (endUtc - startUtc) <= 30000.
Proof.
  intros Hwf Hlt Hout Hpast Hend.
  assert (Hs : startInWork toZonedParts cfg startUtc tz = false)
    by (apply (startInWork_false startUtc tz Hwf); split; assumption).
  assert (He : endBeforeCutoffSameOrNext toZonedParts cfg endUtc tz = true)
    by (apply (endBeforeCutoff_true endUtc tz Hwf); left; exact Hend).
  assert (E : businessMinutesBetween toZonedParts cfg startUtc endUtc tz
              = Math_round (inject_Z (endUtc - startUtc) / 60000)).
  { unfold businessMinutesBetween.
    destruct (Z.leb_spec endUtc startUtc); [lia|].
    rewrite Hs, He. reflexivity. }
  rewrite E, round_minutes. split; [reflexivity |]. split.
  - intros k Hk. rewrite Hk.
    replace (60000 * k + 30000) with (30000 + k * 60000) by lia.
    rewrite Z.div_add by lia. reflexivity.
  - pose proof (Z.div_mod (endUtc - startUtc + 30000) 60000 ltac:(lia)).
    pose proof (Z.mod_pos_bound (endUtc - startUtc + 30000) 60000 ltac:(lia)).
    lia.
Qed.

End ClockProperties.

(** A zone at a fixed offset has seconds from 0 to 59. *)
Lemma fixedOffset_wellFormed (offsetMinutes : Z) (tz : string) :
  wellFormedClock (fixedOffsetParts offsetMinutes) tz.
Proof.
  intros t. unfold fixedOffsetParts. destruct (civilFromDays _) as [[y m] d].
  cbn [second].
  pose proof (Z.mod_pos_bound ((t + offsetMinutes * 60000) mod msPerDay / 1000) 60
                ltac:(lia)).
  lia.
Qed.

(** C3 in Santo Domingo, with the default work hours and cutoff: Friday
    2024-01-05 20:00 to Saturday 07:00 counts 660 minutes, and Monday
    2024-01-08 06:30 to 07:15:30, before the work start, counts the 45.5
    elapsed minutes as 46. *)
Lemma carve_out_friday_evening :
  (weekday (santoDomingo 1704499200000 "America/Santo_Domingo") = "Fri"%string /\
   timeOfDayMs (santoDomingo 1704499200000 "America/Santo_Domingo") 1704499200000
     = 20 * 3600000 /\
   weekday (santoDomingo 1704538800000 "America/Santo_Domingo") = "Sat"%string /\
   timeOfDayMs (santoDomingo 1704538800000 "America/Santo_Domingo") 1704538800000
     = 7 * 3600000 /\
   businessMinutesBetween santoDomingo defaultConfig
     1704499200000 1704538800000 "America/Santo_Domingo" = 660) /\
  (weekday (santoDomingo 1704709800000 "America/Santo_Domingo") = "Mon"%string /\
   timeOfDayMs (santoDomingo 1704709800000 "America/Santo_Domingo") 1704709800000
     = 6 * 3600000 + 30 * 60000 /\
   businessMinutesBetween santoDomingo defaultConfig
     1704709800000 1704712530000 "America/Santo_Domingo" = 46).
Proof.
  split.
  - do 4 (split; [reflexivity |]).
    apply (carve_out_counts_everything santoDomingo defaultConfig
             1704499200000 1704538800000 "America/Santo_Domingo").
    + apply fixedOffset_wellFormed.
    + reflexivity.
    + right. split; [do 4 right; left; reflexivity | right; reflexivity].
    + intros (_ & _ & Hm & _). discriminate Hm.
    + discriminate.
    + reflexivity.
  - do 2 (split; [reflexivity |]).
    refine (eq_trans (proj1 (carve_out_counts_everything santoDomingo defaultConfig
             1704709800000 1704712530000 "America/Santo_Domingo" _ _ _ _ _)) _).
    + apply fixedOffset_wellFormed.
    + reflexivity.
    + right. split; [left; reflexivity | left; reflexivity].
    + intros (_ & _ & Hm & _). discriminate Hm.
    + discriminate.
    + reflexivity.
Defined.

(** C3 as it is stated fails within the minute of the work end: on Monday
    2024-01-08 at 18:00:30 in Santo Domingo the start is after the work
    hours 09:00-18:00, and the end on Tuesday at 07:00 is before the cutoff
    07:30, yet the code, which reads 18:00, takes the start for inside the
    window and returns 0, not the 779.5 elapsed minutes rounded to 780. *)
Lemma carve_out_misses_work_end_minute :
  weekday (santoDomingo 1704751230000 "America/Santo_Domingo") = "Mon"%string /\
  timeOfDayMs (santoDomingo 1704751230000 "America/Santo_Domingo") 1704751230000
    = 18 * 3600000 + 30000 /\
  (workEndMinute defaultConfig * 60000
     <? timeOfDayMs (santoDomingo 1704751230000 "America/Santo_Domingo") 1704751230000)
    = true /\
  weekday (santoDomingo 1704798000000 "America/Santo_Domingo") = "Tue"%string /\
  (timeOfDayMs (santoDomingo 1704798000000 "America/Santo_Domingo") 1704798000000
     <=? cutoffMinute defaultConfig * 60000) = true /\
  (1704751230000 <? 1704798000000) = true /\
  startInWork santoDomingo defaultConfig 1704751230000 "America/Santo_Domingo" = true /\
  businessMinutesBetween santoDomingo defaultConfig
    1704751230000 1704798000000 "America/Santo_Domingo" = 0 /\
  Math_round (inject_Z (1704798000000 - 1704751230000) / 60000) = 780.
Proof. repeat split; vm_compute; reflexivity. Qed.

Section WalkProperties.

Variable toZonedParts : Z -> string -> ZonedParts.
Variable cfg : Config.

(** The two cases of the loop. *)
Lemma walk_step (inWork : bool) (endUtc : Z) (tz : string) (cur total : Z) :
  cur < endUtc ->
  walk toZonedParts cfg inWork endUtc tz cur total =
  walk toZonedParts cfg inWork endUtc tz (Z.min endUtc (cur + hourMs))
       (chunk toZonedParts cfg inWork tz cur (Z.min endUtc (cur + hourMs)) total).
Proof.
  intros H. rewrite walk_equation_1.
  destruct (Z_lt_dec cur endUtc) as [l | n]; [|contradiction].
  rewrite walk_clause_1_equation_1. reflexivity.
Qed.

Lemma walk_done (inWork : bool) (endUtc : Z) (tz : string) (cur total : Z) :
  endUtc <= cur -> walk toZonedParts cfg inWork endUtc tz cur total = total.
Proof.
  intros H. rewrite walk_equation_1.
  destruct (Z_lt_dec cur endUtc) as [l | n]; [lia | reflexivity].
Qed.

(** What the body of the loop adds is the overlap of the slice with the
    work window. *)
Lemma chunk_adds_overlap (inWork : bool) (tz : string) (cur next total : Z) :
  chunk toZonedParts cfg inWork tz cur next total =
  total + sliceMinutes toZonedParts cfg inWork tz (cur, next).
Proof.
  unfold chunk, sliceMinutes, overlap, effectiveWorkStart, clamp,
    workStartMinute, workEndMinute, cutoffMinute, minutesOf, ws, we, cutoffMin,
    minutesSinceMidnight.
  cbn [fst snd].
  pose proof (isWeekday_onWorkDay (toZonedParts cur tz)) as Hday.
  destruct (onWorkDay_dec (toZonedParts cur tz)) as [Hd | Hd];
    destruct (isWeekday (weekday (toZonedParts cur tz)));
    try lia;
    try (exfalso; apply Hd; apply Hday; reflexivity);
    try (apply Hday in Hd; discriminate Hd).
  destruct inWork; cbn [negb];
    match goal with |- context [?a <? ?b] => destruct (Z.ltb_spec a b) end; lia.
Qed.

Lemma slicesLeft_zero (cur endUtc : Z) :
  slicesLeft cur endUtc = O <-> endUtc <= cur.
Proof.
  unfold slicesLeft. change hourMs with 3600000. split.
  - intros H. destruct (Z_lt_le_dec cur endUtc) as [Hlt | Hle]; [|exact Hle].
    assert (1 <= (endUtc - cur + 3600000 - 1) / 3600000)
      by (apply Z.div_le_lower_bound; lia).
    lia.
  - intros H.
    assert ((endUtc - cur + 3600000 - 1) / 3600000 <= 0).
    { apply Z.lt_succ_r. apply Z.div_lt_upper_bound; lia. }
    lia.
Qed.

Lemma slicesLeft_next (cur endUtc : Z) (n : nat) :
  slicesLeft cur endUtc = S n ->
  slicesLeft (Z.min endUtc (cur + hourMs)) endUtc = n /\
  (n <> O -> Z.min endUtc (cur + hourMs) = cur + hourMs).
Proof.
  unfold slicesLeft. change hourMs with 3600000. intros H.
  destruct (Z.min_spec endUtc (cur + 3600000)) as [[Hlt ->] | [Hle ->]].
  - replace (endUtc - endUtc + 3600000 - 1) with 3599999 by lia.
    change (3599999 / 3600000) with 0.
    assert ((endUtc - cur + 3600000 - 1) / 3600000 < 2)
      by (apply Z.div_lt_upper_bound; lia).
    split; [simpl; lia | intros Hn; lia].
  - replace (endUtc - cur + 3600000 - 1)
      with ((endUtc - (cur + 3600000) + 3600000 - 1) + 1 * 3600000) in H by lia.
    rewrite Z.div_add in H by lia.
    assert (0 <= (endUtc - (cur + 3600000) + 3600000 - 1) / 3600000)
      by (apply Z.div_pos; lia).
    split; [lia | reflexivity].
Qed.

(** The loop adds up the minutes of the slices, one after the other. *)
Lemma walk_sum (inWork : bool) (endUtc : Z) (tz : string) (n : nat) :
  forall cur total : Z,
    slicesLeft cur endUtc = n ->
    walk toZonedParts cfg inWork endUtc tz cur total =
    total + sumZ (map (sliceMinutes toZonedParts cfg inWork tz)
                      (slicesFrom n cur endUtc)).
Proof.
  induction n as [|n IH]; intros cur total Hn.
  - rewrite walk_done by (apply slicesLeft_zero; exact Hn). simpl. lia.
  - assert (Hlt : cur < endUtc).
    { destruct (Z_lt_le_dec cur endUtc) as [H | H]; [exact H|].
      apply slicesLeft_zero in H. rewrite H in Hn. discriminate. }
    destruct (slicesLeft_next cur endUtc n Hn) as [Hnext Hfull].
    rewrite walk_step by exact Hlt.
    rewrite (IH _ _ Hnext), chunk_adds_overlap.
    destruct n as [|n]; [simpl; lia|].
    rewrite Hfull by discriminate.
    change (slicesFrom (S (S n)) cur endUtc)
      with ((cur, Z.min endUtc (cur + hourMs)) :: slicesFrom (S n) (cur + hourMs) endUtc).
    rewrite (Hfull ltac:(discriminate)) at 1.
    cbn [map sumZ fold_right]. unfold sumZ. lia.
Qed.



End WalkProperties.




(** A span opened on Friday 2024-01-05 at 20:00 and closed on Monday
    2024-01-08 at 10:00 in Santo Domingo counts the hour from 09:00 to 10:00
    of the Monday only. *)
Lemma friday_evening_to_monday :
  businessMinutesBetween santoDomingo defaultConfig
    1704499200000 1704722400000 "America/Santo_Domingo" = 60.
Proof. vm_compute. reflexivity. Qed.

(** C6 at half past and at three quarters of an hour, and on a run of
    complexity 1. *)
Lemma closeTime_table_witness :
  scoreByThresholds 0.25%Q (thresholdsCloseTimeHours 3) = 1 /\
  scoreByThresholds 0.75%Q (thresholdsCloseTimeHours 2) = 2 /\
  thresholdsCloseTimeHours 5 = thresholdsCloseTimeHours 4 /\
  s_closeTime santoDomingo defaultConfig stalePR =
    scoreByThresholds (closeHours santoDomingo defaultConfig stalePR)
                      (thresholdsCloseTimeHours (complexity stalePR)).
Proof.
  destruct closeTime_table_selection as (Hcomplex & Hsimple & _ & _ & Hlow & Hmid & Hrun).
  split; [apply (Hlow 0.25%Q); discriminate |].
  split.
  { rewrite (Hsimple 2) by lia. apply (Hmid 0.75%Q). split; discriminate. }
  split; [apply (Hcomplex 5); reflexivity |].
  exact (proj1 (Hrun santoDomingo defaultConfig stalePR)).
Defined.

(** * Further properties *)

(** ** The tables against their comments *)

Ltac to_integers :=
  unfold Qle, Qlt, inject_Z in *; simpl in *.

Ltac steps_cases :=
  repeat match goal with
    | |- context [?a <=? ?b] => destruct (Z.leb_spec a b)
    | |- context [?a <? ?b] => destruct (Z.ltb_spec a b)
    | |- context [?a =? ?b] => destruct (Z.eqb_spec a b)
    end.

Lemma commitsCount_steps_all :
  (forall i : Input, s_commitsCount i = commitsCountSteps (totalCommits i)) /\
  (forall n : Z, scoreByThresholds (inject_Z n) thresholdsCommitsCount = commitsCountSteps n) /\
  (forall n m : Z, 1 <= n <= m -> commitsCountSteps m <= commitsCountSteps n).
Proof.
  assert (H : forall n : Z,
             scoreByThresholds (inject_Z n) thresholdsCommitsCount = commitsCountSteps n).
  { intros n. unfold thresholdsCommitsCount, commitsCountSteps.
    lookup_cases; to_integers; steps_cases; lia. }
  split; [intros i; apply H |]. split; [exact H |].
  intros n m Hnm. unfold commitsCountSteps. steps_cases; lia.
Qed.

(** X1. For every number of commits the commit-count score is the one of
    the comment above the table, [>=8 => 1, 6-7 => 2, 5 => 3, 3-4 => 4,
    1-2 => 5], and 1 for a pull request without commits; from one commit on,
    more commits never score higher. *)
Theorem commitsCount_score_steps :
  (forall i : Input, s_commitsCount i = commitsCountSteps (totalCommits i)) /\
  (forall n : Z, scoreByThresholds (inject_Z n) thresholdsCommitsCount = commitsCountSteps n) /\
  (forall n m : Z, 1 <= n <= m -> commitsCountSteps m <= commitsCountSteps n).
Proof. exact commitsCount_steps_all. Qed.

Lemma commitsCount_score_steps_witness :
  commitsCountSteps 9 <= commitsCountSteps 4.
Proof.
  destruct commitsCount_score_steps as (_ & _ & Hmono).
  apply (Hmono 4 9). lia.
Defined.

(** X2. For every pull request the lines-modified score is the one of the
    comment above the table: 1 above 1200 lines, then 2, 3, 4 down to the
    bounds 500, 300 and 50 (legacy: 700, 500 and 100), and 5 at or below the
    last bound; more lines never score higher. *)
Theorem linesModified_score_steps :
  (forall i : Input,
     s_linesModified i = linesModifiedSteps (isLegacy i) (additions (pr i) + deletions (pr i))) /\
  (forall (legacy : bool) (n m : Z),
     n <= m -> linesModifiedSteps legacy m <= linesModifiedSteps legacy n).
Proof.
  split.
  - intros i. unfold s_linesModified, linesModified.
    generalize (additions (pr i) + deletions (pr i)). intros n.
    destruct (isLegacy i); unfold thresholdsLinesModified, linesModifiedSteps; cbn [negb];
      lookup_cases; to_integers; steps_cases; lia.
  - intros legacy n m Hnm. unfold linesModifiedSteps.
    destruct legacy; steps_cases; lia.
Qed.

Lemma linesModified_score_steps_witness :
  linesModifiedSteps true 701 <= linesModifiedSteps true 700.
Proof.
  destruct linesModified_score_steps as (_ & Hmono).
  apply (Hmono true 700 701). lia.
Defined.

Lemma averageSteps_Qeq (b1 b2 b3 b4 v w : Q) :
  (v == w)%Q -> averageSteps b1 b2 b3 b4 v = averageSteps b1 b2 b3 b4 w.
Proof. intros E. unfold averageSteps. rewrite !E. reflexivity. Qed.

Lemma avgSteps_Qeq (legacy : bool) (v w : Q) :
  (v == w)%Q ->
  avgFilesSteps legacy v = avgFilesSteps legacy w /\
  avgLinesSteps legacy v = avgLinesSteps legacy w.
Proof.
  intros E. unfold avgFilesSteps, avgLinesSteps.
  destruct legacy; split; apply averageSteps_Qeq; exact E.
Qed.

Ltac average_cases n d Hd k1 k2 k3 k4 :=
  pose proof (fraction_gap n d k1 Hd); pose proof (fraction_gap n d k2 Hd);
  pose proof (fraction_gap n d k3 Hd); pose proof (fraction_gap n d k4 Hd);
  unfold inject_Z in *; generalize dependent (n # d); intros v; intros;
  unfold averageSteps; lookup_cases; first [reflexivity | exfalso; lra].

Lemma avgFiles_fraction_steps (legacy : bool) (n : Z) (d : positive) :
  Z.pos d <= 1000 ->
  scoreByThresholds (n # d) (thresholdsAvgFilesPerCommit legacy) = avgFilesSteps legacy (n # d).
Proof.
  intros Hd. destruct legacy; unfold thresholdsAvgFilesPerCommit, avgFilesSteps; cbn [negb].
  - average_cases n d Hd 60 50 40 35.
  - average_cases n d Hd 40 30 20 15.
Qed.

Lemma avgLines_fraction_steps (legacy : bool) (n : Z) (d : positive) :
  Z.pos d <= 1000 ->
  scoreByThresholds (n # d) (thresholdsAvgLinesPerCommit legacy) = avgLinesSteps legacy (n # d).
Proof.
  intros Hd. destruct legacy; unfold thresholdsAvgLinesPerCommit, avgLinesSteps; cbn [negb].
  - average_cases n d Hd 400 300 200 150.
  - average_cases n d Hd 350 250 150 100.
Qed.

(** X3. For every average over at most 1000 counted commits (a quotient of
    an integer by a count from 0 to 1000, 0 when the count is 0) the scores
    of the files per commit and of the lines per commit are the ones of the
    comments above the tables: 1 from the first bound on, 2 from the second
    bound up to the first, and so on, 5 below the last bound; so they are
    for every pull request of at most 1000 commits. *)
Theorem averages_score_steps :
  (forall (legacy : bool) (n d : Z), 0 <= d <= 1000 ->
     scoreByThresholds (ratio n d) (thresholdsAvgFilesPerCommit legacy)
       = avgFilesSteps legacy (ratio n d) /\
     scoreByThresholds (ratio n d) (thresholdsAvgLinesPerCommit legacy)
       = avgLinesSteps legacy (ratio n d)) /\
  (forall i : Input, (List.length (commits i) <= 1000)%nat ->
     s_avgFiles i = avgFilesSteps (isLegacy i) (avgFilesPerCommit i) /\
     s_avgLines i = avgLinesSteps (isLegacy i) (avgLinesPerCommit i)).
Proof.
  assert (H : forall (legacy : bool) (n d : Z), 0 <= d <= 1000 ->
     scoreByThresholds (ratio n d) (thresholdsAvgFilesPerCommit legacy)
       = avgFilesSteps legacy (ratio n d) /\
     scoreByThresholds (ratio n d) (thresholdsAvgLinesPerCommit legacy)
       = avgLinesSteps legacy (ratio n d)).
  { intros legacy n d Hd. destruct (Z.eq_dec d 0) as [-> | Hnz].
    - rewrite ratio_zero. destruct legacy; split; reflexivity.
    - assert (Hpos : 0 < d) by lia.
      pose proof (ratio_pos n d Hpos) as E.
      destruct (avgSteps_Qeq legacy _ _ E) as [Ef El].
      rewrite !(scoreByThresholds_Qeq _ _ _ E), Ef, El.
      split; [apply avgFiles_fraction_steps | apply avgLines_fraction_steps];
        rewrite Z2Pos.id; lia. }
  split; [exact H |].
  intros i Hlen. pose proof (countForAverages_bounds i) as Hc.
  unfold totalCommits in Hc.
  unfold s_avgFiles, s_avgLines, avgFilesPerCommit, avgLinesPerCommit.
  split; apply H; lia.
Qed.

Lemma averages_score_steps_witness :
  scoreByThresholds (ratio 79 2) (thresholdsAvgFilesPerCommit false)
    = avgFilesSteps false (ratio 79 2) /\
  s_avgLines sampleInput = avgLinesSteps (isLegacy sampleInput) (avgLinesPerCommit sampleInput).
Proof.
  destruct averages_score_steps as (Hv & Hi).
  split.
  - apply (Hv false 79 2). lia.
  - apply (Hi sampleInput). simpl. lia.
Defined.

Lemma closeTime_minutes_steps (c m : Z) :
  scoreByThresholds (inject_Z m / 60)%Q (thresholdsCloseTimeHours c) = closeTimeSteps c m.
Proof.
  rewrite (scoreByThresholds_Qeq _ _ _ (hours_of_minutes m)).
  unfold thresholdsCloseTimeHours, closeTimeSteps.
  destruct (3 <? c); lookup_cases; to_integers; steps_cases; lia.
Qed.

Lemma closeTime_steps_all
  (toZonedParts : Z -> string -> ZonedParts) (cfg : Config) (i : Input) :
  s_closeTime toZonedParts cfg i
  = closeTimeSteps (complexity i) (businessMins toZonedParts cfg i).
Proof. apply closeTime_minutes_steps. Qed.

(** X4. For every run the close-time score is a function of the complexity
    and of the whole number of business minutes: above complexity 3 it is 5
    up to 240 minutes, then 4, 3, 2 up to 480, 1200 and 1920 minutes and 1
    beyond; up to complexity 3 it is in addition 1 up to 30 minutes and 2
    from 31 to 60 minutes, so it is not monotone there: 60 minutes score 2
    and 61 minutes score 5. *)
Theorem closeTime_score_steps :
  (forall c m : Z,
     scoreByThresholds (inject_Z m / 60)%Q (thresholdsCloseTimeHours c) = closeTimeSteps c m) /\
  (forall (toZonedParts : Z -> string -> ZonedParts) (cfg : Config) (i : Input),
     s_closeTime toZonedParts cfg i
       = closeTimeSteps (complexity i) (businessMins toZonedParts cfg i)) /\
  (forall c m m' : Z, 3 < c -> m <= m' -> closeTimeSteps c m' <= closeTimeSteps c m) /\
  closeTimeSteps 3 60 = 2 /\ closeTimeSteps 3 61 = 5.
Proof.
  split; [exact closeTime_minutes_steps |].
  split; [exact closeTime_steps_all |].
  split; [| split; reflexivity].
  intros c m m' Hc Hm. unfold closeTimeSteps.
  destruct (Z.ltb_spec 3 c); [|lia]. steps_cases; lia.
Qed.

Lemma closeTime_score_steps_witness :
  closeTimeSteps 4 300 <= closeTimeSteps 4 200.
Proof.
  destruct closeTime_score_steps as (_ & _ & Hmono & _).
  apply (Hmono 4 200 300); lia.
Defined.

(** X5. For every complexity and every count of observations some row of
    the observations table admits the count, the score is the step function
    of the table, and a larger count never scores lower. *)
Theorem observations_score_steps :
  (forall c n : Z,
     matchedRow (inject_Z n) (thresholdsObservations c) <> None /\
     scoreByThresholds (inject_Z n) (thresholdsObservations c) = observationsSteps c n) /\
  (forall i : Input, s_observations i = observationsSteps (complexity i)
       (Z.of_nat (issueComments i) + Z.of_nat (reviewComments i) + resolvedThreads i)) /\
  (forall c n m : Z, n <= m -> observationsSteps c n <= observationsSteps c m).
Proof.
  assert (H : forall c n : Z,
     matchedRow (inject_Z n) (thresholdsObservations c) <> None /\
     scoreByThresholds (inject_Z n) (thresholdsObservations c) = observationsSteps c n).
  { intros c n. unfold thresholdsObservations, observationsSteps.
    destruct ((1 <=? c) && (c <? 3)); [|destruct ((3 <=? c) && (c <? 4));
      [|destruct ((4 <=? c) && (c <? 5))]];
      (split; lookup_cases; try discriminate; to_integers; steps_cases; lia). }
  split; [exact H |].
  split; [intros i; apply H |].
  intros c n m Hnm. unfold observationsSteps.
  destruct ((1 <=? c) && (c <? 3)); [|destruct ((3 <=? c) && (c <? 4));
      [|destruct ((4 <=? c) && (c <? 5))]]; steps_cases; lia.
Qed.

Lemma observations_score_steps_witness :
  observationsSteps 2 3 <= observationsSteps 2 11.
Proof.
  destruct observations_score_steps as (_ & _ & Hmono).
  apply (Hmono 2 3 11). lia.
Defined.

(** ** The weighted average, in general *)

(** The averages of the script in binary64, for all scores from 1 to 5 and
    all bounds of them from 1 to 5. *)
Lemma binary64_averages_checked :
  forallb (fun lo => forallb (fun hi =>
  forallb (fun a => forallb (fun b => forallb (fun c => forallb (fun d =>
    implb ((lo <=? a) && (a <=? hi) && (lo <=? b) && (b <=? hi) &&
           (lo <=? c) && (c <=? hi) && (lo <=? d) && (d <=? hi))
          (Binary64.between lo hi (Binary64.M1 a b c d) &&
           Binary64.between lo hi (Binary64.M2 a b c) &&
           Binary64.between lo hi (Binary64.M3 a b) &&
           Binary64.between lo hi (Binary64.M4 a) &&
           Binary64.between lo hi (Binary64.complexityAvg a b c d)))
    Binary64.scores) Binary64.scores) Binary64.scores) Binary64.scores)
    Binary64.scores) Binary64.scores = true.
Proof. vm_compute. reflexivity. Qed.

Lemma binary64_complexityAvg (a b c d : Z) :
  Binary64.complexity a b c d
  = Binary64.Math_min 5 (Binary64.Math_max 1
      (Binary64.Math_round (Binary64.complexityAvg a b c d))).
Proof. reflexivity. Qed.

(** X6. In exact arithmetic the average of a non-empty list of items with
    positive weights lies between any two bounds of their scores: it never
    leaves the range of the scores it averages.  In binary64 this fails for
    some lists, the single item of score 3 and weight 0.1 averaging above 3,
    and holds for the lists of the script: with scores from 1 to 5 the four
    categories and the average of the complexity, as binary64 computes them,
    lie between any two bounds of their scores. *)
Theorem weightedAvg_between (lo hi : Z) (items : list Item.t) :
  items <> [] ->
  Forall (fun it => (0 < Item.weight it)%Q /\ lo <= Item.score it <= hi) items ->
  (inject_Z lo <= weightedAvg items <= inject_Z hi)%Q /\
  (1 <= lo -> hi <= 5 ->
   forall a b c d : Z,
     lo <= a <= hi -> lo <= b <= hi -> lo <= c <= hi -> lo <= d <= hi ->
     Binary64.between lo hi (Binary64.M1 a b c d) = true /\
     Binary64.between lo hi (Binary64.M2 a b c) = true /\
     Binary64.between lo hi (Binary64.M3 a b) = true /\
     Binary64.between lo hi (Binary64.M4 a) = true /\
     Binary64.between lo hi (Binary64.complexityAvg a b c d) = true) /\
  Binary64.weightedAvg [Binary64.item 3 0.1] = 3.0000000000000004%float /\
  Binary64.between 3 3 (Binary64.weightedAvg [Binary64.item 3 0.1]) = false.
Proof.
  intros Hne H. split.
  { apply weightedAvg_bounds; [exact Hne |].
    rewrite Forall_forall in H. intros it Hit. destruct (H it Hit) as (Hw & Hl & Hh).
    split; [exact Hw |]. split; unfold Qle, inject_Z; simpl; lia. }
  split; [| split; vm_compute; reflexivity].
  intros Hlo Hhi a b c d Ha Hb Hc Hd.
  pose proof binary64_averages_checked as Hall.
  rewrite forallb_forall in Hall.
  specialize (Hall lo (in_scores lo ltac:(lia))). cbv beta in Hall.
  rewrite forallb_forall in Hall.
  specialize (Hall hi (in_scores hi ltac:(lia))). cbv beta in Hall.
  rewrite forallb_forall in Hall.
  specialize (Hall a (in_scores a ltac:(lia))). cbv beta in Hall.
  rewrite forallb_forall in Hall.
  specialize (Hall b (in_scores b ltac:(lia))). cbv beta in Hall.
  rewrite forallb_forall in Hall.
  specialize (Hall c (in_scores c ltac:(lia))). cbv beta in Hall.
  rewrite forallb_forall in Hall.
  specialize (Hall d (in_scores d ltac:(lia))). cbv beta in Hall.
  replace ((lo <=? a) && (a <=? hi) && (lo <=? b) && (b <=? hi) &&
           (lo <=? c) && (c <=? hi) && (lo <=? d) && (d <=? hi)) with true in Hall.
  - cbn [implb] in Hall. rewrite !andb_true_iff in Hall. tauto.
  - symmetry. rewrite !andb_true_iff, !Z.leb_le. lia.
Qed.

(** X6 on three items with scores from 2 to 4, in exact arithmetic and, as
    the approvals category, in binary64. *)
Lemma weightedAvg_between_witness :
  (inject_Z 2 <= weightedAvg [item 2 0.5; item 4 0.2; item 3 0.3] <= inject_Z 4)%Q /\
  Binary64.between 2 4 (Binary64.M2 2 4 3) = true.
Proof.
  assert (Hne : [item 2 0.5; item 4 0.2; item 3 0.3] <> []) by discriminate.
  assert (Hall : Forall (fun it => (0 < Item.weight it)%Q /\ 2 <= Item.score it <= 4)
                        [item 2 0.5; item 4 0.2; item 3 0.3])
    by (repeat constructor; simpl; lia).
  split.
  - exact (proj1 (weightedAvg_between 2 4 _ Hne Hall)).
  - apply (proj1 (proj2 (weightedAvg_between 2 4 _ Hne Hall))
             ltac:(lia) ltac:(lia) 2 4 3 3); lia.
Defined.

Lemma sums_scaled (k : Q) (items : list Item.t) :
  (sumWeights (map (scaleWeight k) items) == k * sumWeights items)%Q /\
  (sumScores (map (scaleWeight k) items) == k * sumScores items)%Q.
Proof.
  induction items as [|it items [IHw IHs]]; simpl.
  - split; ring.
  - rewrite IHw, IHs. split; ring.
Qed.

(** X7. Only the proportions of the weights matter: multiplying every
    weight by the same number other than 0 leaves the average unchanged. *)
Theorem weightedAvg_scale (k : Q) (items : list Item.t) :
  ~ (k == 0)%Q ->
  (weightedAvg (map (scaleWeight k) items) == weightedAvg items)%Q.
Proof.
  intros Hk. destruct (sums_scaled k items) as [Hw Hs].
  destruct (weightedAvg_quotient items) as [Hq Hz].
  destruct (weightedAvg_quotient (map (scaleWeight k) items)) as [Hq' Hz'].
  destruct (Qeq_dec (sumWeights items) 0) as [E | E].
  - rewrite (Hz E). apply Hz'. rewrite Hw, E. ring.
  - rewrite (Hq E). rewrite Hq'.
    + rewrite Hw, Hs. field. split; assumption.
    + rewrite Hw. intros C. apply Qmult_integral in C. tauto.
Qed.

Lemma weightedAvg_scale_witness :
  (weightedAvg (map (scaleWeight 100) [item 5 0.75; item 2 0.25])
   == weightedAvg [item 5 0.75; item 2 0.25])%Q.
Proof.
  apply (weightedAvg_scale 100 [item 5 0.75; item 2 0.25]). discriminate.
Defined.

Lemma sums_permuted (items items' : list Item.t) :
  Permutation items items' ->
  (sumWeights items == sumWeights items')%Q /\ (sumScores items == sumScores items')%Q.
Proof.
  induction 1 as [| it l l' _ [IHw IHs] | a b l | l l' l'' _ [IHw IHs] _ [IHw' IHs']]; simpl.
  - split; reflexivity.
  - rewrite IHw, IHs. split; reflexivity.
  - split; ring.
  - split; [rewrite IHw; exact IHw' | rewrite IHs; exact IHs'].
Qed.

(** X8. The average does not depend on the order of the items. *)
Theorem weightedAvg_permutation (items items' : list Item.t) :
  Permutation items items' -> (weightedAvg items == weightedAvg items')%Q.
Proof.
  intros P. destruct (sums_permuted items items' P) as [Hw Hs].
  destruct (weightedAvg_quotient items) as [Hq Hz].
  destruct (weightedAvg_quotient items') as [Hq' Hz'].
  destruct (Qeq_dec (sumWeights items) 0) as [E | E].
  - rewrite (Hz E). symmetry. apply Hz'. rewrite <- Hw. exact E.
  - rewrite (Hq E), Hq' by (rewrite <- Hw; exact E).
    rewrite Hw, Hs. reflexivity.
Qed.

Lemma weightedAvg_permutation_witness :
  (weightedAvg [item 5 0.75; item 2 0.25] == weightedAvg [item 2 0.25; item 5 0.75])%Q.
Proof.
  apply (weightedAvg_permutation [item 5 0.75; item 2 0.25] [item 2 0.25; item 5 0.75]).
  apply perm_swap.
Defined.

(** ** The loop over the commits *)

Lemma sums_fold (cs : list Commit) (a : Sums) :
  fold_left addCommit cs a =
  mkSums (sumFiles a + sumZ (map (fun c => Z.of_nat (fileCount c)) (counted cs)))
         (sumLines a + sumZ (map (fun c => Z.of_N (totalLines c)) (counted cs)))
         (countForAverages a + Z.of_nat (List.length (counted cs)))
         (commitsStandardOk a + Z.of_nat (List.length (filter standardOk cs))).
Proof.
  revert a. induction cs as [|c cs IH]; intros a.
  - destruct a; simpl. f_equal; lia.
  - simpl fold_left. rewrite IH. unfold addCommit, counted. simpl filter.
    destruct (exclude c), (standardOk c); cbn [negb map sumZ fold_right List.length
      sumFiles sumLines countForAverages commitsStandardOk];
      f_equal; unfold sumZ; lia.
Qed.

Lemma sums_components (i : Input) :
  sumFiles (sums i) = sumZ (map (fun c => Z.of_nat (fileCount c)) (counted (commits i))) /\
  sumLines (sums i) = sumZ (map (fun c => Z.of_N (totalLines c)) (counted (commits i))) /\
  countForAverages (sums i) = Z.of_nat (List.length (counted (commits i))) /\
  commitsStandardOk (sums i) = Z.of_nat (List.length (filter standardOk (commits i))).
Proof.
  unfold sums. rewrite sums_fold. simpl. repeat split; lia.
Qed.

(** X9. The loop over the commits adds up the files and the lines of the
    commits whose type is not chore, style or docs, and counts them; the
    commits that match the commit regex are counted among all commits, the
    excluded ones too. *)
Theorem extractor_sums (i : Input) :
  sumFiles (sums i) = sumZ (map (fun c => Z.of_nat (fileCount c)) (counted (commits i))) /\
  sumLines (sums i) = sumZ (map (fun c => Z.of_N (totalLines c)) (counted (commits i))) /\
  countForAverages (sums i) = Z.of_nat (List.length (counted (commits i))) /\
  commitsStandardOk (sums i) = Z.of_nat (List.length (filter standardOk (commits i))).
Proof. exact (sums_components i). Qed.

Lemma counted_idempotent (cs : list Commit) : counted (counted cs) = counted cs.
Proof.
  unfold counted. induction cs as [|c cs IH]; [reflexivity|].
  simpl. destruct (exclude c) eqn:E; simpl; [exact IH|].
  rewrite E. simpl. rewrite IH. reflexivity.
Qed.

Lemma sumZ_permutation (l l' : list Z) : Permutation l l' -> sumZ l = sumZ l'.
Proof.
  induction 1; unfold sumZ in *; simpl; lia.
Qed.

Lemma counted_permutation (cs cs' : list Commit) :
  Permutation cs cs' -> Permutation (counted cs) (counted cs').
Proof.
  unfold counted. induction 1 as [| c l l' _ IH | a b l | l l' l'' _ IH _ IH']; simpl.
  - constructor.
  - destruct (negb (exclude c)); [constructor|]; exact IH.
  - destruct (negb (exclude a)), (negb (exclude b));
      try apply perm_swap; apply Permutation_refl.
  - eapply Permutation_trans; eassumption.
Qed.

Lemma filter_permutation (f : Commit -> bool) (cs cs' : list Commit) :
  Permutation cs cs' -> List.length (filter f cs) = List.length (filter f cs').
Proof.
  induction 1 as [| c l l' _ IH | a b l | l l' l'' _ IH _ IH']; simpl.
  - reflexivity.
  - destruct (f c); simpl; rewrite IH; reflexivity.
  - destruct (f a), (f b); reflexivity.
  - rewrite IH. exact IH'.
Qed.

(** X10. The averages of files and lines per commit do not see the commits
    of type chore, style or docs: dropping them from the pull request leaves
    both averages as they are.  Nor does the order of the commits matter:
    the four counters, and so the averages and the conforming share, are the
    same for any rearrangement of the commits. *)
Theorem extractor_ignores_excluded_and_order (i : Input) :
  avgFilesPerCommit (withCommits i (counted (commits i))) = avgFilesPerCommit i /\
  avgLinesPerCommit (withCommits i (counted (commits i))) = avgLinesPerCommit i /\
  (forall cs : list Commit, Permutation (commits i) cs ->
     sums (withCommits i cs) = sums i /\
     totalCommits (withCommits i cs) = totalCommits i).
Proof.
  destruct (sums_components i) as (Hf & Hl & Hc & Hk).
  destruct (sums_components (withCommits i (counted (commits i)))) as (Hf' & Hl' & Hc' & _).
  cbn [commits withCommits] in Hf', Hl', Hc'. rewrite counted_idempotent in Hf', Hl', Hc'.
  unfold avgFilesPerCommit, avgLinesPerCommit.
  rewrite Hf', Hl', Hc', Hf, Hl, Hc.
  split; [reflexivity |]. split; [reflexivity |].
  intros cs P. split.
  - unfold sums. cbn [commits withCommits]. rewrite !sums_fold. simpl.
    pose proof (counted_permutation _ _ P) as Pc.
    rewrite (sumZ_permutation _ _ (Permutation_map (fun c => Z.of_nat (fileCount c)) Pc)).
    rewrite (sumZ_permutation _ _ (Permutation_map (fun c => Z.of_N (totalLines c)) Pc)).
    rewrite (Permutation_length Pc), (filter_permutation standardOk _ _ P).
    reflexivity.
  - unfold totalCommits. cbn [commits withCommits].
    rewrite (Permutation_length P). reflexivity.
Qed.

Lemma extractor_order_witness :
  sums (withCommits sampleInput (rev threeCommits)) = sums sampleInput.
Proof.
  apply (extractor_ignores_excluded_and_order sampleInput).
  apply Permutation_rev.
Defined.

Lemma filter_length_le (f : Commit -> bool) (cs : list Commit) :
  (List.length (filter f cs) <= List.length cs)%nat.
Proof.
  induction cs as [|c cs IH]; simpl; [lia|]. destruct (f c); simpl; lia.
Qed.

Lemma commitStandard_steps_all (i : Input) :
  0 <= commitsStandardOk (sums i) <= totalCommits i /\
  s_commitStandard i = commitStandardSteps (commitsStandardOk (sums i)) (totalCommits i).
Proof.
  pose proof (filter_length_le standardOk (commits i)) as Hle.
  assert (Hk : commitsStandardOk (sums i)
               = Z.of_nat (List.length (filter standardOk (commits i))))
    by (unfold sums; rewrite sums_fold; simpl; lia).
  assert (Hb : 0 <= commitsStandardOk (sums i) <= totalCommits i)
    by (unfold totalCommits; lia).
  split; [exact Hb |].
  unfold s_commitStandard, commitStandardSteps, commitStandardPct.
  generalize dependent (commitsStandardOk (sums i)). intros ok _ Hb.
  generalize dependent (totalCommits i). intros total Hb.
  destruct (Z.eq_dec total 0) as [-> | Hnz]; [reflexivity |].
  assert (Hpos : 0 < total) by lia.
  pose proof (ratio_pos ok total Hpos) as E. rewrite !E.
  destruct (Z.eqb_spec total 0); [lia|].
  assert (Hd : Z.pos (Z.to_pos total) = total) by (apply Z2Pos.id; exact Hpos).
  lookup_cases; steps_cases; unfold Qle in *; cbn [Qnum Qden] in *;
    rewrite ?Hd in *; lia.
Qed.

(** X11. The share of commits that match the commit regex lies between 0
    and 1, and the commit-standard score is decided by whole numbers: 1 for
    a pull request without commits, otherwise 5 when at least 9 in 10
    commits conform, 4 from 3 in 4, 3 from 3 in 5, 2 from 2 in 5, else 1. *)
Theorem commitStandard_score (i : Input) :
  0 <= commitsStandardOk (sums i) <= totalCommits i /\
  (0 <= commitStandardPct i <= 1)%Q /\
  s_commitStandard i = commitStandardSteps (commitsStandardOk (sums i)) (totalCommits i).
Proof.
  destruct (sums_components i) as (_ & _ & _ & Hk).
  pose proof (filter_length_le standardOk (commits i)) as Hle.
  assert (Hb : 0 <= commitsStandardOk (sums i) <= totalCommits i)
    by (unfold totalCommits; lia).
  split; [exact Hb |].
  unfold s_commitStandard, commitStandardSteps, commitStandardPct.
  generalize dependent (commitsStandardOk (sums i)). intros ok _ Hb.
  generalize dependent (totalCommits i). intros total Hb.
  destruct (Z.eq_dec total 0) as [-> | Hnz].
  - rewrite ratio_zero. split; [split; discriminate | reflexivity].
  - assert (Hpos : 0 < total) by lia.
    pose proof (ratio_pos ok total Hpos) as E. rewrite !E.
    destruct (Z.eqb_spec total 0); [lia|].
    assert (Hd : Z.pos (Z.to_pos total) = total) by (apply Z2Pos.id; exact Hpos).
    split.
    + unfold Qle. cbn [Qnum Qden]. rewrite Hd. lia.
    + lookup_cases; steps_cases; unfold Qle in *; cbn [Qnum Qden] in *;
        rewrite ?Hd in *; lia.
Qed.

(** ** Approvals, declined, branch *)

Lemma approver_iff (i : Input) (l : string) :
  In l (approvers i) <->
  exists r, In r (reviews i) /\ review_state r = "APPROVED"%string /\
            login r = Some l /\ l <> EmptyString.
Proof.
  unfold approvers. rewrite nodup_In, in_flat_map. split.
  - intros (r & Hr & Hl). exists r. split; [exact Hr |].
    destruct (String.eqb_spec (review_state r) "APPROVED") as [Hs | Hs];
      [|contradiction Hl].
    destruct (login r) as [x|] eqn:Hx; unfold truthy in Hl; simpl in Hl; [|contradiction Hl].
    destruct (String.eqb_spec x EmptyString) as [He | He]; simpl in Hl; [contradiction Hl|].
    destruct Hl as [<- | []]. repeat split; [exact Hs | exact He].
  - intros (r & Hr & Hs & Hx & He). exists r. split; [exact Hr |].
    rewrite Hs, Hx. unfold truthy. simpl.
    destruct (String.eqb_spec l EmptyString) as [C | _]; [contradiction | left; reflexivity].
Qed.

Lemma approvers_length (i : Input) :
  (List.length (approvers i) <= List.length (reviews i))%nat.
Proof.
  unfold approvers.
  match goal with |- (List.length (nodup _ ?l) <= _)%nat =>
    assert (Hn : (List.length (nodup string_dec l) <= List.length l)%nat)
  end.
  { apply NoDup_incl_length; [apply NoDup_nodup |].
    intros x Hx. apply nodup_In in Hx. exact Hx. }
  etransitivity; [exact Hn |]. clear Hn.
  generalize (reviews i). intros rs.
  induction rs as [|r rs IH]; [apply Nat.le_refl |].
  cbn [flat_map]. rewrite length_app. cbn [List.length].
  assert ((List.length
             (if String.eqb (review_state r) "APPROVED" && truthy (login r)
              then match login r with Some l => [l] | None => [] end
              else []) <= 1)%nat)
    by (destruct (String.eqb (review_state r) "APPROVED" && truthy (login r));
        [destruct (login r)|]; simpl; lia).
  lia.
Qed.

Lemma approvals_count_and_score_range (i : Input) : 2 <= s_approvals i /\ s_approvals i <= 5.
Proof.
  assert (Hc : 0 <= approvalsCount i) by (unfold approvalsCount; lia).
  unfold s_approvals.
  destruct (Z.ltb_spec 2 (approvalsCount i)); [split; lia |].
  destruct (Z.eqb_spec (approvalsCount i) 2); [split; lia |].
  destruct (Z.eqb_spec (approvalsCount i) 1); [split; lia |].
  destruct (Z.eqb_spec (approvalsCount i) 0); [split; lia | lia].
Qed.

(** X12. The approvals are the distinct non-empty logins of the reviews in
    state APPROVED: a login that approves several times counts once, the
    count is at most the number of reviews and depends only on which logins
    approved.  The score is 2 without approval, 3 with one, 4 with two and 5
    with three or more; the last branch of the chain, score 1, is never
    taken. *)
Theorem approvals_count_and_score (i : Input) :
  NoDup (approvers i) /\
  (forall l : string, In l (approvers i) <->
     exists r, In r (reviews i) /\ review_state r = "APPROVED"%string /\
               login r = Some l /\ l <> EmptyString) /\
  0 <= approvalsCount i <= Z.of_nat (List.length (reviews i)) /\
  (forall rs : list Review,
     (forall l : string, In l (approvers (withReviews i rs)) <-> In l (approvers i)) ->
     approvalsCount (withReviews i rs) = approvalsCount i) /\
  approvalsCount (withReviews i (reviews i ++ reviews i)) = approvalsCount i /\
  s_approvals i = (if 2 <? approvalsCount i then 5 else approvalsCount i + 2) /\
  2 <= s_approvals i <= 5.
Proof.
  assert (Hnd : forall j : Input, NoDup (approvers j))
    by (intros j; unfold approvers; apply NoDup_nodup).
  assert (Hset : forall rs : list Review,
     (forall l : string, In l (approvers (withReviews i rs)) <-> In l (approvers i)) ->
     approvalsCount (withReviews i rs) = approvalsCount i).
  { intros rs H. unfold approvalsCount. f_equal. apply Permutation_length.
    apply NoDup_Permutation; [apply Hnd | apply Hnd | exact H]. }
  pose proof (approvers_length i) as Hlen.
  assert (Hc : 0 <= approvalsCount i) by (unfold approvalsCount; lia).
  split; [apply Hnd |]. split; [apply approver_iff |].
  split; [unfold approvalsCount; lia |].
  split; [exact Hset |].
  split.
  { apply Hset. intros l. rewrite !approver_iff. cbn [reviews withReviews].
    split; intros (r & Hr & H); exists r; (split; [|exact H]).
    - apply in_app_or in Hr. tauto.
    - apply in_or_app. left; exact Hr. }
  unfold s_approvals.
  destruct (Z.ltb_spec 2 (approvalsCount i)); [split; lia |].
  destruct (Z.eqb_spec (approvalsCount i) 2) as [-> | ?]; [split; lia |].
  destruct (Z.eqb_spec (approvalsCount i) 1) as [-> | ?]; [split; lia |].
  destruct (Z.eqb_spec (approvalsCount i) 0) as [-> | ?]; [split; lia | lia].
Qed.

Lemma approvals_count_witness :
  approvalsCount (withReviews sampleInput (rev (reviews sampleInput)))
  = approvalsCount sampleInput.
Proof.
  destruct (approvals_count_and_score sampleInput) as (_ & _ & _ & Hset & _).
  apply (Hset (rev (reviews sampleInput))).
  intros l. rewrite !approver_iff. cbn [reviews withReviews].
  split; intros (r & Hr & H); exists r; (split; [|exact H]).
  - apply in_rev. exact Hr.
  - apply in_rev in Hr. exact Hr.
Defined.

Lemma M2_sum (i : Input) :
  (M2 i == 0.5 * inject_Z (s_approvals i) + 0.2 * inject_Z (s_declined i)
           + 0.3 * inject_Z (s_branch i))%Q.
Proof.
  unfold M2.
  destruct (weightedAvg_quotient
              [item (s_approvals i) 0.50; item (s_declined i) 0.20; item (s_branch i) 0.30])
    as [Hq _].
  rewrite Hq; simpl; [field | lra].
Qed.

Lemma inject_Z_between (lo hi s : Z) :
  lo <= s <= hi -> (inject_Z lo <= inject_Z s <= inject_Z hi)%Q.
Proof. intros [H1 H2]. unfold Qle, inject_Z. simpl. lia. Qed.

Lemma M2_range_only (i : Input) : (2.2 <= M2 i <= 5)%Q.
Proof.
  destruct (approvals_count_and_score_range i) as [Ha1 Ha2].
  assert (Hd : 3 <= s_declined i <= 5)
    by (unfold s_declined; destruct (declinedThisPr i =? 0); lia).
  assert (Hb : 2 <= s_branch i <= 5)
    by (unfold s_branch; destruct (branchOk i); lia).
  rewrite M2_sum.
  pose proof (inject_Z_between 2 5 (s_approvals i) (conj Ha1 Ha2)) as Ha.
  apply inject_Z_between in Hd, Hb. unfold inject_Z in *. lra.
Qed.

(** X13. A pull request scores 3 for declined exactly when it is closed
    and not merged, and 5 otherwise; the branch scores 5 or 2.  With the
    approvals score of at least 2, the category M2 is never below 2.2. *)
Theorem M2_bounds (i : Input) :
  (s_declined i = 3 <->
   state (pr i) = "closed"%string /\ truthy (merged_at (pr i)) = false) /\
  (s_declined i = 3 \/ s_declined i = 5) /\
  (s_branch i = 2 \/ s_branch i = 5) /\
  (2.2 <= M2 i <= 5)%Q.
Proof.
  assert (Hd : (s_declined i = 3 <->
            state (pr i) = "closed"%string /\ truthy (merged_at (pr i)) = false) /\
            (s_declined i = 3 \/ s_declined i = 5)).
  { unfold s_declined, declinedThisPr, isClosed, isMerged.
    destruct (String.eqb_spec (state (pr i)) "closed") as [Hs | Hs];
      destruct (truthy (merged_at (pr i))); simpl; split; try tauto;
      split; try discriminate; try tauto; intros [H1 H2];
      try contradiction; discriminate. }
  destruct Hd as [Hiff Hd].
  assert (Hb : s_branch i = 2 \/ s_branch i = 5)
    by (unfold s_branch; destruct (branchOk i); tauto).
  destruct (approvals_count_and_score_range i) as [Ha1 Ha2].
  split; [exact Hiff |]. split; [exact Hd |]. split; [exact Hb |].
  rewrite M2_sum.
  pose proof (inject_Z_between 2 5 (s_approvals i) (conj Ha1 Ha2)) as Ha.
  assert (Hd' : 3 <= s_declined i <= 5) by lia.
  assert (Hb' : 2 <= s_branch i <= 5) by lia.
  apply inject_Z_between in Hd', Hb'. unfold inject_Z in *. lra.
Qed.

(** ** The range of maturity *)

Lemma penalty_values (i : Input) :
  (m5Penalty i = 0%Q \/ m5Penalty i = 0.5%Q) /\
  (state (pr i) <> "open"%string -> m5Penalty i = 0%Q).
Proof.
  unfold m5Penalty.
  destruct (String.eqb_spec (state (pr i)) "open") as [Ho | Ho];
    destruct (negb (Qle_bool (ageDays i) 7)); simpl; split; tauto.
Qed.

Lemma categories_range
  (toZonedParts : Z -> string -> ZonedParts) (cfg : Config) (i : Input) :
  (1 <= M1 i <= 5)%Q /\ (1 <= M3 toZonedParts cfg i <= 5)%Q /\ (1 <= M4 i <= 5)%Q.
Proof.
  pose proof (signal_scores_in_range toZonedParts cfg i) as Hs.
  rewrite Forall_forall in Hs.
  assert (H1 : 1 <= s_commitsCount i <= 5) by (apply Hs; simpl; tauto).
  assert (H2 : 1 <= s_avgFiles i <= 5) by (apply Hs; simpl; tauto).
  assert (H3 : 1 <= s_avgLines i <= 5) by (apply Hs; simpl; tauto).
  assert (H4 : 1 <= s_commitStandard i <= 5) by (apply Hs; simpl; tauto).
  assert (H5 : 1 <= s_linesModified i <= 5) by (apply Hs; simpl; tauto).
  assert (H6 : 1 <= s_closeTime toZonedParts cfg i <= 5) by (apply Hs; simpl; tauto).
  assert (H7 : 1 <= s_observations i <= 5) by (apply Hs; simpl; tauto).
  repeat split;
    try (apply category_range; [discriminate | repeat constructor; simpl; lia]).
Qed.

(** X14. For every run the maturity lies between 0.68 and 5, and for a pull
    request that is not open, which takes no penalty whatever its age,
    between 1.18 and 5: the lowest categories are 1, 2.2, 1 and 1. *)
Theorem maturity_bounds
  (toZonedParts : Z -> string -> ZonedParts) (cfg : Config) (i : Input) :
  (0.68 <= maturity toZonedParts cfg i <= 5)%Q /\
  (state (pr i) <> "open"%string ->
   (1.18 <= maturity toZonedParts cfg i <= 5)%Q /\
   (maturity toZonedParts cfg i ==
    M1 i * 0.25 + M2 i * 0.15 + M3 toZonedParts cfg i * 0.35 + M4 i * 0.25)%Q).
Proof.
  destruct (categories_range toZonedParts cfg i) as (H1 & H3 & H4).
  pose proof (M2_range_only i) as H2.
  destruct (penalty_values i) as [Hp Hclosed].
  unfold maturity, weightedSum. split.
  - destruct Hp as [-> | ->]; lra.
  - intros Hs. rewrite (Hclosed Hs). split; [lra | ring].
Qed.

Lemma maturity_bounds_witness :
  (1.18 <= maturity santoDomingo defaultConfig sampleInput <= 5)%Q.
Proof.
  apply (maturity_bounds santoDomingo defaultConfig sampleInput).
  discriminate.
Defined.

(** ** The clock, further *)

Section ClockFurther.

Variable toZonedParts : Z -> string -> ZonedParts.
Variable cfg : Config.

Lemma sliceMinutes_nonneg (inWork : bool) (tz : string) (s : Z * Z) :
  0 <= sliceMinutes toZonedParts cfg inWork tz s.
Proof.
  unfold sliceMinutes, overlap.
  destruct (onWorkDay_dec (toZonedParts (fst s) tz)); lia.
Qed.

Lemma sumZ_nonneg (l : list Z) : Forall (fun x => 0 <= x) l -> 0 <= sumZ l.
Proof. induction 1; unfold sumZ in *; simpl; lia. Qed.

(** The loop only adds to the total it starts from. *)
Lemma walk_from_total (inWork : bool) (endUtc : Z) (tz : string) (cur total : Z) :
  walk toZonedParts cfg inWork endUtc tz cur total =
  total + walk toZonedParts cfg inWork endUtc tz cur 0.
Proof.
  rewrite (walk_sum toZonedParts cfg inWork endUtc tz _ cur total eq_refl).
  rewrite (walk_sum toZonedParts cfg inWork endUtc tz _ cur 0 eq_refl). lia.
Qed.

Lemma walk_nonneg (inWork : bool) (endUtc : Z) (tz : string) (cur : Z) :
  0 <= walk toZonedParts cfg inWork endUtc tz cur 0.
Proof.
  rewrite (walk_sum toZonedParts cfg inWork endUtc tz _ cur 0 eq_refl).
  assert (0 <= sumZ (map (sliceMinutes toZonedParts cfg inWork tz)
                         (slicesFrom (slicesLeft cur endUtc) cur endUtc))); [|lia].
  apply sumZ_nonneg. apply Forall_forall. intros x Hx.
  apply in_map_iff in Hx. destruct Hx as (s & <- & _). apply sliceMinutes_nonneg.
Qed.

(** X15. [businessMinutesBetween] is never negative, whatever the zone, the
    configuration and the instants, and it is 0 when the end is not after
    the start; so the close hours of a run are never negative. *)
Theorem businessMinutes_nonneg :
  (forall (startUtc endUtc : Z) (tz : string),
     0 <= businessMinutesBetween toZonedParts cfg startUtc endUtc tz) /\
  (forall (startUtc endUtc : Z) (tz : string),
     endUtc <= startUtc -> businessMinutesBetween toZonedParts cfg startUtc endUtc tz = 0) /\
  (forall i : Input, (0 <= closeHours toZonedParts cfg i)%Q).
Proof.
  assert (H : forall (startUtc endUtc : Z) (tz : string),
     0 <= businessMinutesBetween toZonedParts cfg startUtc endUtc tz).
  { intros startUtc endUtc tz. unfold businessMinutesBetween.
    destruct (Z.leb_spec endUtc startUtc); [lia |].
    destruct (negb _ && _); [|apply walk_nonneg].
    rewrite round_minutes. apply Z.div_pos; lia. }
  split; [exact H |]. split.
  - intros startUtc endUtc tz Hle. unfold businessMinutesBetween.
    destruct (Z.leb_spec endUtc startUtc); [reflexivity | lia].
  - intros i. unfold closeHours, businessMins.
    rewrite hours_of_minutes. unfold Qle. simpl.
    specialize (H (createdAt i) (closedAt i) (tz i)). lia.
Qed.

(** The loop counts nothing over a stretch in which no instant falls on a
    work day. *)
Lemma walk_no_workday (inWork : bool) (endUtc : Z) (tz : string) (n : nat) :
  forall cur total : Z,
    slicesLeft cur endUtc = n ->
    (forall t : Z, cur <= t < endUtc -> isWeekday (weekday (toZonedParts t tz)) = false) ->
    walk toZonedParts cfg inWork endUtc tz cur total = total.
Proof.
  induction n as [|n IH]; intros cur total Hn Hday.
  - apply walk_done. apply slicesLeft_zero. exact Hn.
  - assert (Hlt : cur < endUtc).
    { destruct (Z_lt_le_dec cur endUtc) as [H | H]; [exact H|].
      apply slicesLeft_zero in H. rewrite H in Hn. discriminate. }
    destruct (slicesLeft_next cur endUtc n Hn) as [Hnext _].
    rewrite walk_step by exact Hlt.
    rewrite (IH _ _ Hnext).
    + unfold chunk. rewrite (Hday cur) by lia. reflexivity.
    + intros t Ht. apply Hday. unfold hourMs in Ht. lia.
Qed.

(** The code takes the end for at or before the cutoff exactly when its
    time of day is before the minute that follows the cutoff. *)
Lemma endBeforeCutoff_exact (endUtc : Z) (tz : string) :
  wellFormedClock toZonedParts tz ->
  (endBeforeCutoffSameOrNext toZonedParts cfg endUtc tz = true <->
   timeOfDayMs (toZonedParts endUtc tz) endUtc < (cutoffMinute cfg + 1) * 60000).
Proof.
  intros Hwf. rewrite endBeforeCutoff_minutes.
  pose proof (time_within_minute (toZonedParts endUtc tz) endUtc (Hwf endUtc)) as Ht.
  split; lia.
Qed.

(** X17. A span in which no instant falls on Monday to Friday counts 0
    business minutes when the local time of its end is at or after the
    minute that follows the morning cutoff (07:31:00 with the default
    cutoff), and all its elapsed minutes, rounded, when the end is before
    that minute: the code reads the end to the minute, so the carve-out rule
    still applies within the minute that begins at the cutoff. *)
Theorem weekend_counts_nothing (startUtc endUtc : Z) (tz : string) :
  wellFormedClock toZonedParts tz ->
  startUtc < endUtc ->
  (forall t : Z, startUtc <= t < endUtc -> ~ onWorkDay (toZonedParts t tz)) ->
  ((cutoffMinute cfg + 1) * 60000 <= timeOfDayMs (toZonedParts endUtc tz) endUtc ->
   businessMinutesBetween toZonedParts cfg startUtc endUtc tz = 0) /\
  (timeOfDayMs (toZonedParts endUtc tz) endUtc < (cutoffMinute cfg + 1) * 60000 ->
   businessMinutesBetween toZonedParts cfg startUtc endUtc tz
   = Math_round (inject_Z (endUtc - startUtc) / 60000)).
Proof.
  intros Hwf Hlt Hday.
  assert (Hweek : forall t : Z, startUtc <= t < endUtc ->
                    isWeekday (weekday (toZonedParts t tz)) = false).
  { intros t Ht. destruct (isWeekday (weekday (toZonedParts t tz))) eqn:E; [|reflexivity].
    exfalso. apply (Hday t Ht). apply isWeekday_onWorkDay. exact E. }
  assert (Hs : startInWork toZonedParts cfg startUtc tz = false).
  { unfold startInWork. cbn zeta. rewrite (Hweek startUtc) by lia. reflexivity. }
  unfold businessMinutesBetween.
  destruct (Z.leb_spec endUtc startUtc); [lia |].
  rewrite Hs. cbn [negb andb].
  split; intros Hcut.
  - destruct (endBeforeCutoffSameOrNext toZonedParts cfg endUtc tz) eqn:E.
    + apply (endBeforeCutoff_exact endUtc tz Hwf) in E. lia.
    + apply (walk_no_workday _ _ _ _ _ _ eq_refl). exact Hweek.
  - rewrite (proj2 (endBeforeCutoff_exact endUtc tz Hwf) Hcut). reflexivity.
Qed.


(** The loop up to [endUtc] is the loop up to a whole number of hours
    after [cur], continued from there. *)
Lemma walk_split (inWork : bool) (endUtc : Z) (tz : string) (k : nat) :
  forall cur total : Z,
    cur + Z.of_nat k * hourMs <= endUtc ->
    walk toZonedParts cfg inWork endUtc tz cur total =
    walk toZonedParts cfg inWork endUtc tz (cur + Z.of_nat k * hourMs)
         (walk toZonedParts cfg inWork (cur + Z.of_nat k * hourMs) tz cur total).
Proof.
  induction k as [|k IH]; intros cur total Hle.
  - change (Z.of_nat 0) with 0. rewrite Z.mul_0_l, Z.add_0_r.
    rewrite (walk_done _ _ inWork cur tz cur total) by lia. reflexivity.
  - rewrite Nat2Z.inj_succ in *. change hourMs with 3600000 in *.
    assert (Hmid : cur + Z.succ (Z.of_nat k) * 3600000
                   = (cur + 3600000) + Z.of_nat k * 3600000) by lia.
    rewrite (walk_step _ _ inWork endUtc tz cur total) by lia.
    rewrite (walk_step _ _ inWork (cur + Z.succ (Z.of_nat k) * 3600000) tz cur total) by lia.
    change hourMs with 3600000.
    rewrite (Z.min_r endUtc (cur + 3600000)) by lia.
    rewrite (Z.min_r (cur + Z.succ (Z.of_nat k) * 3600000) (cur + 3600000)) by lia.
    rewrite Hmid. apply IH. lia.
Qed.

(** X18. Business minutes add up over whole hours inside the work window:
    when the start and an instant a whole number of hours later are both
    inside the work window, the minutes from the start to any later end are
    the minutes up to that instant plus the minutes from it to the end. *)
Theorem businessMinutes_split (startUtc endUtc : Z) (tz : string) (k : nat) :
  let midUtc := startUtc + Z.of_nat k * hourMs in
  startInWork toZonedParts cfg startUtc tz = true ->
  startInWork toZonedParts cfg midUtc tz = true ->
  midUtc <= endUtc ->
  businessMinutesBetween toZonedParts cfg startUtc endUtc tz =
  businessMinutesBetween toZonedParts cfg startUtc midUtc tz
  + businessMinutesBetween toZonedParts cfg midUtc endUtc tz.
Proof.
  intros midUtc Hs Hm Hle.
  assert (Hk : startUtc <= midUtc) by (unfold midUtc, hourMs; lia).
  unfold businessMinutesBetween. rewrite Hs, Hm. cbn [negb andb].
  rewrite (walk_split true endUtc tz k startUtc 0 Hle). fold midUtc.
  rewrite walk_from_total.
  destruct (Z.leb_spec endUtc startUtc); destruct (Z.leb_spec midUtc startUtc);
    destruct (Z.leb_spec endUtc midUtc);
    try (rewrite (walk_done _ _ true endUtc tz midUtc 0) by lia);
    try (rewrite (walk_done _ _ true midUtc tz startUtc 0) by lia); lia.
Qed.

End ClockFurther.

(** The weekday and the minute of the day in a zone at a fixed offset. *)
Lemma fixedOffset_weekday (offsetMinutes t : Z) (tz : string) :
  weekday (fixedOffsetParts offsetMinutes t tz)
  = weekdayName (((t + offsetMinutes * 60000) / 86400000 + 4) mod 7).
Proof.
  unfold fixedOffsetParts. destruct (civilFromDays _) as [[y m] d]. reflexivity.
Qed.

Lemma fixedOffset_regular (offsetMinutes : Z) (tz : string) :
  regularZone (fixedOffsetParts offsetMinutes) tz (offsetMinutes * 60000).
Proof.
  intros t. unfold fixedOffsetParts, minuteOfDay, minutesSinceMidnight.
  destruct (civilFromDays _) as [[y m] d]. cbn [hour minute].
  change msPerDay with 86400000. change hourMs with 3600000.
  generalize (t + offsetMinutes * 60000). intros x.
  pose proof (Z.mod_pos_bound x 86400000 ltac:(lia)) as Hb.
  pose proof (Z.div_mod x 86400000 ltac:(lia)) as Hx.
  set (r := x mod 86400000) in *. set (q := x / 86400000) in *.
  assert (Hr : x / 60000 = q * 1440 + r / 60000).
  { rewrite Hx. replace (86400000 * q + r) with (r + (q * 1440) * 60000) by lia.
    rewrite Z.div_add by lia. lia. }
  rewrite Hr. replace (q * 1440 + r / 60000) with (r / 60000 + q * 1440) by lia.
  rewrite Z.mod_add by lia.
  assert (Hm : 0 <= r / 60000 < 1440).
  { split; [apply Z.div_pos; lia | apply Z.div_lt_upper_bound; lia]. }
  rewrite (Z.mod_small (r / 60000) 1440) by exact Hm.
  assert (Hh : r / 3600000 = r / 60000 / 60) by (rewrite Z.div_div by lia; reflexivity).
  rewrite Hh. pose proof (Z.div_mod (r / 60000) 60 ltac:(lia)). lia.
Qed.

(** No instant of a stretch within the Saturday and the Sunday of the
    first week of 2024 in Santo Domingo is on a work day. *)
Lemma first_weekend_2024 (t : Z) :
  1704513600000 <= t < 1704686400000 ->
  ~ onWorkDay (santoDomingo t "America/Santo_Domingo").
Proof.
  intros Ht Hd. apply isWeekday_onWorkDay in Hd. revert Hd.
  unfold santoDomingo. rewrite fixedOffset_weekday.
  change (-240 * 60000) with (-14400000).
  assert (Hd : (t + -14400000) / 86400000 = 19728 \/ (t + -14400000) / 86400000 = 19729).
  { assert (19728 <= (t + -14400000) / 86400000) by (apply Z.div_le_lower_bound; lia).
    assert ((t + -14400000) / 86400000 < 19730) by (apply Z.div_lt_upper_bound; lia).
    lia. }
  destruct Hd as [-> | ->]; discriminate.
Qed.

(** X17 in Santo Domingo with the default cutoff 07:30: Saturday 2024-01-06
    08:00 to Sunday 20:00 counts nothing, and Saturday 06:00 to 07:30:30,
    within the minute of the cutoff, counts the 90.5 elapsed minutes as
    91. *)
Lemma weekend_counts_nothing_witness :
  (timeOfDayMs (santoDomingo 1704672000000 "America/Santo_Domingo") 1704672000000
     = 20 * 3600000 /\
   businessMinutesBetween santoDomingo defaultConfig
     1704542400000 1704672000000 "America/Santo_Domingo" = 0) /\
  (timeOfDayMs (santoDomingo 1704540630000 "America/Santo_Domingo") 1704540630000
     = 7 * 3600000 + 30 * 60000 + 30000 /\
   businessMinutesBetween santoDomingo defaultConfig
     1704535200000 1704540630000 "America/Santo_Domingo" = 91).
Proof.
  split; (split; [reflexivity |]).
  - refine (proj1 (weekend_counts_nothing santoDomingo defaultConfig
              1704542400000 1704672000000 "America/Santo_Domingo" _ _ _) _).
    + apply fixedOffset_wellFormed.
    + reflexivity.
    + intros t Ht. apply first_weekend_2024. lia.
    + discriminate.
  - refine (eq_trans (proj2 (weekend_counts_nothing santoDomingo defaultConfig
              1704535200000 1704540630000 "America/Santo_Domingo" _ _ _) _) _).
    + apply fixedOffset_wellFormed.
    + reflexivity.
    + intros t Ht. apply first_weekend_2024. lia.
    + reflexivity.
    + reflexivity.
Defined.


(** X18 on Monday 2024-01-08 in Santo Domingo: 10:00 to 12:00 is 10:00 to
    11:00 and 11:00 to 12:00. *)
Lemma businessMinutes_split_witness :
  businessMinutesBetween santoDomingo defaultConfig
    1704722400000 1704729600000 "America/Santo_Domingo" =
  businessMinutesBetween santoDomingo defaultConfig
    1704722400000 (1704722400000 + Z.of_nat 1 * hourMs) "America/Santo_Domingo"
  + businessMinutesBetween santoDomingo defaultConfig
    (1704722400000 + Z.of_nat 1 * hourMs) 1704729600000 "America/Santo_Domingo".
Proof.
  apply (businessMinutes_split santoDomingo defaultConfig
           1704722400000 1704729600000 "America/Santo_Domingo" 1);
    [reflexivity | reflexivity | discriminate].
Defined.

Section RegularZone.

Variable toZonedParts : Z -> string -> ZonedParts.
Variable cfg : Config.
Variable tz : string.
Variable offsetMs : Z.
Hypothesis regular : regularZone toZonedParts tz offsetMs.

(** Elapsed milliseconds in minutes, rounded up. *)
Lemma minutes_advance (c n : Z) :
  c <= n ->
  minuteOfDay (toZonedParts n tz) - minuteOfDay (toZonedParts c tz)
  <= (n - c + 59999) / 60000.
Proof.
  intros Hcn. rewrite !regular.
  set (a := (c + offsetMs) / 60000). set (b := (n + offsetMs) / 60000).
  assert (Hab : a <= b) by (apply Z.div_le_mono; lia).
  assert (Hd : a / 1440 <= b / 1440) by (apply Z.div_le_mono; lia).
  pose proof (Z.div_mod a 1440 ltac:(lia)). pose proof (Z.div_mod b 1440 ltac:(lia)).
  assert (Hba : b - a <= (n - c + 59999) / 60000).
  { apply Z.div_le_lower_bound; [lia |].
    pose proof (Z.div_mod (c + offsetMs) 60000 ltac:(lia)).
    pose proof (Z.div_mod (n + offsetMs) 60000 ltac:(lia)).
    pose proof (Z.mod_pos_bound (c + offsetMs) 60000 ltac:(lia)).
    pose proof (Z.mod_pos_bound (n + offsetMs) 60000 ltac:(lia)).
    fold a in H1. fold b in H2. lia. }
  lia.
Qed.

Lemma slice_at_most_elapsed (inWork : bool) (c n : Z) :
  c <= n ->
  sliceMinutes toZonedParts cfg inWork tz (c, n) <= (n - c + 59999) / 60000.
Proof.
  intros Hcn. pose proof (minutes_advance c n Hcn) as H.
  assert (0 <= (n - c + 59999) / 60000) by (apply Z.div_pos; lia).
  unfold sliceMinutes, overlap. cbn [fst snd].
  fold (minuteOfDay (toZonedParts c tz)). fold (minuteOfDay (toZonedParts n tz)).
  destruct (onWorkDay_dec _); lia.
Qed.

Lemma slices_at_most_elapsed (inWork : bool) (endUtc : Z) (n : nat) :
  forall cur : Z,
    slicesLeft cur endUtc = n ->
    sumZ (map (sliceMinutes toZonedParts cfg inWork tz) (slicesFrom n cur endUtc))
    <= (Z.max 0 (endUtc - cur) + 59999) / 60000.
Proof.
  induction n as [|n IH]; intros cur Hn.
  - simpl. apply Z.div_pos; lia.
  - assert (Hlt : cur < endUtc).
    { destruct (Z_lt_le_dec cur endUtc) as [H | H]; [exact H|].
      apply slicesLeft_zero in H. rewrite H in Hn. discriminate. }
    destruct (slicesLeft_next cur endUtc n Hn) as [Hnext Hfull].
    cbn [slicesFrom map sumZ fold_right].
    fold (sumZ (map (sliceMinutes toZonedParts cfg inWork tz)
                    (slicesFrom n (cur + hourMs) endUtc))).
    destruct n as [|n].
    + cbn [slicesFrom map sumZ fold_right].
      pose proof (slice_at_most_elapsed inWork cur (Z.min endUtc (cur + hourMs))
                    ltac:(unfold hourMs; lia)) as Hs.
      assert ((Z.min endUtc (cur + hourMs) - cur + 59999) / 60000
              <= (Z.max 0 (endUtc - cur) + 59999) / 60000)
        by (apply Z.div_le_mono; lia).
      lia.
    + pose proof (Hfull ltac:(discriminate)) as Hmin. rewrite Hmin in Hnext.
      specialize (IH (cur + hourMs) Hnext).
      assert (Hgt : cur + hourMs < endUtc).
      { destruct (Z_lt_le_dec (cur + hourMs) endUtc) as [H | H]; [exact H|].
        apply slicesLeft_zero in H. rewrite H in Hnext. discriminate. }
      rewrite Hmin.
      pose proof (slice_at_most_elapsed inWork cur (cur + hourMs)
                    ltac:(unfold hourMs; lia)) as Hs.
      change hourMs with 3600000 in *.
      replace (cur + 3600000 - cur + 59999) with (59999 + 60 * 60000) in Hs by lia.
      rewrite Z.div_add in Hs by lia. change (59999 / 60000) with 0 in Hs.
      rewrite Z.max_r in IH by lia. rewrite Z.max_r by lia.
      replace (endUtc - cur + 59999)
        with ((endUtc - (cur + 3600000) + 59999) + 60 * 60000) by lia.
      rewrite Z.div_add by lia. lia.
Qed.

(** X19. In a zone whose wall clock runs at a fixed offset from UTC, the
    business minutes of a span never exceed its elapsed minutes, rounded
    up. *)
Theorem businessMinutes_at_most_elapsed (startUtc endUtc : Z) :
  startUtc < endUtc ->
  businessMinutesBetween toZonedParts cfg startUtc endUtc tz
  <= (endUtc - startUtc + 59999) / 60000.
Proof.
  intros Hlt. unfold businessMinutesBetween.
  destruct (Z.leb_spec endUtc startUtc); [lia |].
  destruct (negb _ && _).
  - rewrite round_minutes. apply Z.div_le_mono; lia.
  - rewrite (walk_sum toZonedParts cfg _ endUtc tz _ startUtc 0 eq_refl).
    pose proof (slices_at_most_elapsed
                  (startInWork toZonedParts cfg startUtc tz) endUtc _ startUtc eq_refl)
      as Hsum.
    rewrite Z.max_r in Hsum by lia. lia.
Qed.

End RegularZone.

(** X19 on Friday 2024-01-05 20:00 to Monday 10:00 in Santo Domingo: 60
    business minutes in 3720 elapsed. *)
Lemma businessMinutes_at_most_elapsed_witness :
  businessMinutesBetween santoDomingo defaultConfig
    1704499200000 1704722400000 "America/Santo_Domingo"
  <= (1704722400000 - 1704499200000 + 59999) / 60000.
Proof.
  apply (businessMinutes_at_most_elapsed santoDomingo defaultConfig
           "America/Santo_Domingo" (-240 * 60000)).
  - apply fixedOffset_regular.
  - reflexivity.
Defined.

(** ** The report *)

Lemma floor_of_half_more (f : Z) : Qfloor (inject_Z f + (1 # 2)) = f.
Proof.
  pose proof (Qfloor_le (inject_Z f + (1 # 2))) as Hle.
  pose proof (Qlt_floor (inject_Z f + (1 # 2))) as Hlt.
  set (g := Qfloor (inject_Z f + (1 # 2))) in *.
  unfold Qle, Qlt, Qplus, inject_Z in Hle, Hlt. simpl in Hle, Hlt. lia.
Qed.

(** X20. [round1] moves a value by at most 0.05, onto a multiple of 0.1,
    and rounding again changes nothing. *)
Theorem round1_properties (x : Q) :
  (x - 0.05 < round1 x <= x + 0.05)%Q /\
  (exists n : Z, round1 x == inject_Z n / 10)%Q /\
  (round1 (round1 x) == round1 x)%Q.
Proof.
  unfold round1, Math_round.
  pose proof (Qfloor_le (x * 10 + (1 # 2))) as Hle.
  pose proof (Qlt_floor (x * 10 + (1 # 2))) as Hlt.
  set (f := Qfloor (x * 10 + (1 # 2))) in *.
  rewrite inject_Z_plus in Hlt. change (inject_Z 1) with 1%Q in Hlt.
  split; [|split].
  - split.
    + apply Qlt_shift_div_l; lra.
    + apply Qle_shift_div_r; lra.
  - exists f. reflexivity.
  - assert (E : (inject_Z f / 10 * 10 + (1 # 2) == inject_Z f + (1 # 2))%Q) by field.
    rewrite (Qfloor_comp _ _ E), floor_of_half_more. reflexivity.
Qed.

Lemma pushIf_In (b : bool) (a x : Advice) (lines : list Advice) :
  In x (pushIf b a lines) <-> In x lines \/ (b = true /\ x = a).
Proof.
  unfold pushIf. destruct b.
  - rewrite in_app_iff. simpl. intuition congruence.
  - intuition congruence.
Qed.

Lemma unresolved_threads (i : Input) :
  0 < unresolvedThreads i <-> In false (threads i).
Proof.
  unfold unresolvedThreads. induction (threads i) as [|t ts IH]; simpl.
  - split; [lia | tauto].
  - destruct t; simpl.
    + rewrite IH. split; [tauto | intros [H | H]; [discriminate | exact H]].
    + split; [tauto | lia].
Qed.

(** A line is among the recommendations exactly when its test holds. *)
Lemma recommendations_In
  (toZonedParts : Z -> string -> ZonedParts) (cfg : Config) (i : Input) (a : Advice) :
  In a (recommendations toZonedParts cfg i) <->
  match a with
  | ReduceCommits => s_commitsCount i <= 2
  | SplitFiles => s_avgFiles i <= 2
  | SmallerCommits => s_avgLines i <= 2
  | CommitMessages => s_commitStandard i <= 3
  | BranchName => branchOk i = false
  | CloseThreads => 0 < unresolvedThreads i
  | SpeedUpReview => s_closeTime toZonedParts cfg i <= 2
  end.
Proof.
  unfold recommendations. rewrite !pushIf_In. cbn [In].
  rewrite !Z.leb_le, Z.ltb_lt, negb_true_iff.
  destruct a; intuition (try discriminate).
Qed.

(** X21. The quick recommendations of the report, by what triggers them:
    fewer commits is advised for 6 commits or more and also for a pull
    request without commits; better commit messages when fewer than 3 in 4
    commits match the regex, or there is no commit; the branch name when it
    does not match; closing threads when some thread is unresolved; and
    faster review when the business minutes exceed 1200 or, up to
    complexity 3, when they are at most 60. *)
Theorem recommendations_triggers
  (toZonedParts : Z -> string -> ZonedParts) (cfg : Config) (i : Input) :
  let advice := recommendations toZonedParts cfg i in
  (In ReduceCommits advice <-> totalCommits i = 0 \/ 6 <= totalCommits i) /\
  (In SplitFiles advice <-> s_avgFiles i <= 2) /\
  (In SmallerCommits advice <-> s_avgLines i <= 2) /\
  (In CommitMessages advice <->
     totalCommits i = 0 \/ 4 * commitsStandardOk (sums i) < 3 * totalCommits i) /\
  (In BranchName advice <-> branchOk i = false) /\
  (In CloseThreads advice <-> In false (threads i)) /\
  (In SpeedUpReview advice <->
     1200 < businessMins toZonedParts cfg i \/
     (complexity i <= 3 /\ businessMins toZonedParts cfg i <= 60)).
Proof.
  intros advice. subst advice.
  pose proof (fun a => recommendations_In toZonedParts cfg i a) as Hin.
  assert (Hlen : 0 <= totalCommits i) by (unfold totalCommits; lia).
  destruct (commitStandard_steps_all i) as (Hb & Hs).
  split; [|split; [|split; [|split; [|split; [|split]]]]].
  - rewrite (Hin ReduceCommits). cbn match.
    rewrite (proj1 commitsCount_steps_all i). clear Hin Hs Hb.
    unfold commitsCountSteps. steps_cases; split; lia.
  - apply (Hin SplitFiles).
  - apply (Hin SmallerCommits).
  - rewrite (Hin CommitMessages). cbn match. rewrite Hs. clear Hin Hs.
    unfold commitStandardSteps. steps_cases; split; lia.
  - apply (Hin BranchName).
  - rewrite (Hin CloseThreads). cbn match. apply unresolved_threads.
  - rewrite (Hin SpeedUpReview). cbn match. rewrite closeTime_steps_all. clear Hin Hs.
    unfold closeTimeSteps. steps_cases; split; lia.
Qed.

(** ** Threads, and runs at other times *)

(** X22. Every review thread is either resolved or unresolved, and only
    the resolved ones are observations: the observations are the issue
    comments, the review comments and the resolved threads. *)
Theorem threads_partition (i : Input) :
  resolvedThreads i + unresolvedThreads i = Z.of_nat (List.length (threads i)) /\
  0 <= resolvedThreads i /\ 0 <= unresolvedThreads i /\
  observations i
  = Z.of_nat (issueComments i) + Z.of_nat (reviewComments i)
    + Z.of_nat (List.length (threads i)) - unresolvedThreads i.
Proof.
  assert (H : resolvedThreads i + unresolvedThreads i = Z.of_nat (List.length (threads i))).
  { unfold resolvedThreads, unresolvedThreads.
    induction (threads i) as [|t ts IH]; [reflexivity|].
    destruct t; cbn [filter negb List.length]; lia. }
  unfold observations, totalComments.
  unfold resolvedThreads, unresolvedThreads in *. repeat split; lia.
Qed.

(** X23. The report of a pull request that is closed does not depend on
    when the script runs: with a [closed_at] and a [state] other than open,
    the business minutes, every score, the four categories and the maturity
    are the same whatever [new Date()] and [Date.now()] return. *)
Theorem closed_report_is_timeless
  (toZonedParts : Z -> string -> ZonedParts) (cfg : Config)
  (i : Input) (nowClosed' now' : Z) :
  closed_at (pr i) <> None ->
  state (pr i) <> "open"%string ->
  let j := atTimes i nowClosed' now' in
  businessMins toZonedParts cfg j = businessMins toZonedParts cfg i /\
  complexity j = complexity i /\
  s_closeTime toZonedParts cfg j = s_closeTime toZonedParts cfg i /\
  M1 j = M1 i /\ M2 j = M2 i /\
  M3 toZonedParts cfg j = M3 toZonedParts cfg i /\ M4 j = M4 i /\
  maturity toZonedParts cfg j = maturity toZonedParts cfg i.
Proof.
  intros Hc Hs j.
  assert (Hb : businessMins toZonedParts cfg j = businessMins toZonedParts cfg i).
  { unfold businessMins, closedAt, createdAt. subst j. cbn [pr tz atTimes].
    destruct (closed_at (pr i)); [reflexivity | contradiction Hc; reflexivity]. }
  assert (Hk : s_closeTime toZonedParts cfg j = s_closeTime toZonedParts cfg i).
  { unfold s_closeTime, closeHours. rewrite Hb. reflexivity. }
  assert (H3 : M3 toZonedParts cfg j = M3 toZonedParts cfg i).
  { unfold M3. rewrite Hk. reflexivity. }
  assert (Hp : m5Penalty j = m5Penalty i).
  { unfold m5Penalty. subst j. cbn [pr atTimes].
    destruct (String.eqb_spec (state (pr i)) "open"); [contradiction | reflexivity]. }
  repeat split; try reflexivity; try assumption.
  unfold maturity. rewrite H3, Hp. reflexivity.
Qed.

Lemma closed_report_witness :
  maturity santoDomingo defaultConfig (atTimes sampleInput 0 1893456000000)
  = maturity santoDomingo defaultConfig sampleInput.
Proof.
  apply (closed_report_is_timeless santoDomingo defaultConfig sampleInput 0 1893456000000);
    discriminate.
Defined.

(** ** Complexity, further *)

Lemma round_between (lo hi : Z) (x : Q) :
  (inject_Z lo <= x <= inject_Z hi)%Q -> lo <= Math_round x <= hi.
Proof.
  intros [Hl Hh]. unfold Math_round. split.
  - rewrite <- (floor_of_half_more lo). apply Qfloor_resp_le. lra.
  - rewrite <- (floor_of_half_more hi). apply Qfloor_resp_le. lra.
Qed.

(** X24. The complexity of a functional change lies within any bounds of
    its four scores (so four equal scores give that score), and the clamp
    to 1..5 never acts: the rounded average is already there. *)
Theorem complexity_within_scores (i : Input) (lo hi : Z) :
  isFunctional i = true ->
  Forall (fun s => lo <= s <= hi)
    [s_commitsCount i; s_avgFiles i; s_avgLines i; s_linesModified i] ->
  lo <= complexity i <= hi /\
  complexity i = Math_round (weightedAvg
    [ item (s_commitsCount i) 0.20; item (s_avgFiles i) 0.25;
      item (s_avgLines i) 0.25; item (s_linesModified i) 0.30 ]).
Proof.
  intros Hf Hs. rewrite Forall_forall in Hs.
  assert (H1 : lo <= s_commitsCount i <= hi) by (apply Hs; simpl; tauto).
  assert (H2 : lo <= s_avgFiles i <= hi) by (apply Hs; simpl; tauto).
  assert (H3 : lo <= s_avgLines i <= hi) by (apply Hs; simpl; tauto).
  assert (H4 : lo <= s_linesModified i <= hi) by (apply Hs; simpl; tauto).
  pose proof (scoreByThresholds_range (inject_Z (totalCommits i)) _ commitsCount_scores) as R1.
  pose proof (scoreByThresholds_range (avgFilesPerCommit i) _ (avgFiles_scores (isLegacy i))) as R2.
  pose proof (scoreByThresholds_range (avgLinesPerCommit i) _ (avgLines_scores (isLegacy i))) as R3.
  pose proof (scoreByThresholds_range (inject_Z (linesModified i)) _
                (linesModified_scores (isLegacy i))) as R4.
  fold (s_commitsCount i) in R1. fold (s_avgFiles i) in R2.
  fold (s_avgLines i) in R3. fold (s_linesModified i) in R4.
  set (items := [ item (s_commitsCount i) 0.20; item (s_avgFiles i) 0.25;
                  item (s_avgLines i) 0.25; item (s_linesModified i) 0.30 ]).
  assert (Hb : forall a b : Z,
            a <= s_commitsCount i <= b -> a <= s_avgFiles i <= b ->
            a <= s_avgLines i <= b -> a <= s_linesModified i <= b ->
            a <= Math_round (weightedAvg items) <= b).
  { intros a b B1 B2 B3 B4. apply round_between.
    apply weightedAvg_bounds; [discriminate |].
    intros it Hit. subst items. simpl in Hit.
    destruct Hit as [<- | [<- | [<- | [<- | []]]]]; simpl;
      (split; [reflexivity | apply inject_Z_between; assumption]). }
  pose proof (Hb lo hi H1 H2 H3 H4) as Hlh.
  pose proof (Hb 1 5 R1 R2 R3 R4) as H15.
  unfold complexity. rewrite Hf. cbn [negb]. fold items. split; lia.
Qed.

Lemma complexity_within_scores_witness :
  1 <= complexity stalePR <= 1.
Proof.
  apply (complexity_within_scores stalePR 1 1).
  - reflexivity.
  - repeat (constructor; [split; discriminate |]). constructor.
Defined.
